(** * Card-transaction validation and partition: a shallow embedding

    Embeds [src/lambda/models.py] (the [CardTransaction] model and
    [validate_record]) and the core of [src/lambda/app.py]
    ([_build_output_keys] and the row loop / emit step of [handler]).

    Python values are modelled as follows.
    - [str] is a Rocq [string]; every [ascii] stands for one code point
      below U+0100 (code points above that are outside the model).
    - a [dict] keyed by field names is a [gmap string _]; the insertion
      order of a dict is not kept.
    - an exception is a value of [exn], carried by the [outcome] monad.
    - an output line is the JSON document it holds ([json]), not its
      characters.

    The reads and writes of S3, the decoding of the CSV object and the
    two [print] calls of [handler] are outside the embedding: the rows
    read and the [put_object] calls made are its input and output. *)

From Stdlib Require Import ZArith Ascii String List Lia Bool.
From stdpp Require Import base option list gmap strings.

Set Warnings "-register-all".

Local Open Scope Z_scope.

(** ** Python primitives *)

Module Py.

(** [str.isspace] on one character, for the code points below U+0100:
    TAB..CR, FS..US, SPACE, NEL and NBSP. *)
Definition isspace (c : ascii) : bool :=
  let n := N_of_ascii c in
  ((9 <=? n)%N && (n <=? 13)%N) || ((28 <=? n)%N && (n <=? 32)%N)
  || (n =? 133)%N || (n =? 160)%N.

Fixpoint lstrip (s : string) : string :=
  match s with
  | EmptyString => EmptyString
  | String c r => if isspace c then lstrip r else s
  end.

Fixpoint rstrip (s : string) : string :=
  match s with
  | EmptyString => EmptyString
  | String c r =>
      match rstrip r with
      | EmptyString => if isspace c then EmptyString else String c EmptyString
      | r' => String c r'
      end
  end.

(** [s.strip()] *)
Definition strip (s : string) : string := rstrip (lstrip s).

(** Truth value of a string: [not s] holds exactly for the empty string. *)
Definition truthy (s : string) : bool :=
  match s with EmptyString => false | String _ _ => true end.

(** [len(s)] *)
Definition len (s : string) : Z := Z.of_nat (String.length s).

(** [s[:n]] for [n >= 0]. *)
Fixpoint slice_to (n : nat) (s : string) : string :=
  match n, s with
  | O, _ => EmptyString
  | S n', String c r => String c (slice_to n' r)
  | S _, EmptyString => EmptyString
  end.

(** [s[n:]] for [n >= 0]. *)
Fixpoint slice_from (n : nat) (s : string) : string :=
  match n, s with
  | O, _ => s
  | S n', String _ r => slice_from n' r
  | S _, EmptyString => EmptyString
  end.

(** [s.endswith(suffix)]: the last [len(suffix)] characters are [suffix]. *)
Definition endswith (s suffix : string) : bool :=
  (String.length suffix <=? String.length s)%nat
  && String.eqb (slice_from (String.length s - String.length suffix) s) suffix.

(** [s[:-k]] for [k > 0]: a negative bound counts from the end and is
    clamped at the start of the string. *)
Definition drop_last (k : nat) (s : string) : string :=
  slice_to (String.length s - k) s.

(** Built-in exceptions raised by the embedded code. *)
Inductive exn :=
| ValueError (msg : string)
| TypeError (msg : string).

Definition class_name (e : exn) : string :=
  match e with
  | ValueError _ => "ValueError"
  | TypeError _ => "TypeError"
  end.

(** A computation that returns a value or propagates an exception. *)
Inductive outcome (A : Type) :=
| Return (a : A)
| Raise (e : exn).
Arguments Return {A} a.
Arguments Raise {A} e.

Definition bind {A B} (m : outcome A) (k : A -> outcome B) : outcome B :=
  match m with
  | Return a => k a
  | Raise e => Raise e
  end.

(** The Python objects that reach [json.dumps] in this program. *)
Inductive pyobj :=
| PyNone
| PyStr (s : string)
| PyInt (n : Z)
| PyList (xs : list pyobj)
| PyTuple (xs : list pyobj)
| PyDict (items : list (string * pyobj))
| PyExc (e : exn).

(** A JSON document. One output line is one such document; its
    concrete text (separators, escapes) is not modelled. *)
Inductive json :=
| JNull
| JString (s : string)
| JNumber (n : Z)
| JArray (xs : list json)
| JObject (members : list (string * json)).

(** [json.dumps(o)] with the default encoder: lists and tuples become
    arrays, dicts become objects, and any other object (here: an
    exception instance) makes the encoder raise [TypeError]. *)
Fixpoint json_dumps (o : pyobj) : outcome json :=
  match o with
  | PyNone => Return JNull
  | PyStr s => Return (JString s)
  | PyInt n => Return (JNumber n)
  | PyList xs | PyTuple xs =>
      bind ((fix go (l : list pyobj) : outcome (list json) :=
               match l with
               | [] => Return []
               | x :: r => bind (json_dumps x) (fun j => bind (go r) (fun js => Return (j :: js)))
               end) xs)
           (fun js => Return (JArray js))
  | PyDict items =>
      bind ((fix go (l : list (string * pyobj)) : outcome (list (string * json)) :=
               match l with
               | [] => Return []
               | (k, v) :: r => bind (json_dumps v) (fun j => bind (go r) (fun js => Return ((k, j) :: js)))
               end) items)
           (fun ms => Return (JObject ms))
  | PyExc e =>
      Raise (TypeError ("Object of type " +:+ class_name e +:+ " is not JSON serializable"))
  end.

(** The two traversals inside [json_dumps], under a name. *)
Fixpoint dumps_all (l : list pyobj) : outcome (list json) :=
  match l with
  | [] => Return []
  | x :: r => bind (json_dumps x) (fun j => bind (dumps_all r) (fun js => Return (j :: js)))
  end.

Fixpoint dumps_items (l : list (string * pyobj)) : outcome (list (string * json)) :=
  match l with
  | [] => Return []
  | (k, v) :: r =>
      bind (json_dumps v) (fun j => bind (dumps_items r) (fun js => Return ((k, j) :: js)))
  end.

(** Member lookup in a JSON object. *)
Fixpoint member (k : string) (ms : list (string * json)) : option json :=
  match ms with
  | [] => None
  | (k', j) :: r => if String.eqb k k' then Some j else member k r
  end.

End Py.

#[global] Instance outcome_ret : MRet Py.outcome := @Py.Return.
#[global] Instance outcome_bind : MBind Py.outcome := fun A B k m => Py.bind m k.

(** ** The validation library

    [models.py] declares its rules through pydantic (v2): field types,
    [Field] constraints and [field_validator] hooks. This module models
    the part of the library those declarations use. What the library
    decides on the text of a cell in lax mode (the two string
    conversions and the classification of a refused text) is kept
    abstract in the class [Lax]; every general theorem below holds for
    any instance of it. *)

Module Pydantic.
Import Py.

(** [datetime.datetime]. [tzinfo] is [None] for a naive value and
    [Some off] for a fixed offset of [off] seconds east of UTC. *)
Record datetime := mk_datetime {
  year : Z; month : Z; day : Z;
  hour : Z; minute : Z; second : Z; microsecond : Z;
  tzinfo : option Z
}.

(** [v.utcoffset()], in seconds; [None] for a naive value. *)
Definition utcoffset (v : datetime) : option Z := tzinfo v.

(** [timezone.utc.utcoffset(v)]: [timedelta(0)] whatever [v]. *)
Definition timezone_utc_utcoffset (v : datetime) : option Z := Some 0.

(** The type of the entry that the library makes for a text it does
    not convert: [int_parsing] or [int_parsing_size] for an integer,
    [datetime_parsing] or [datetime_from_date_parsing] for a timestamp. *)
Inductive int_refusal :=
| not_an_integer
| integer_too_long.

Inductive datetime_refusal :=
| not_a_datetime
| not_a_datetime_or_date.

(** What the embedding takes from the library as it is installed: its
    lax conversions of a [str] input, the type it gives to the entry of
    a text it refuses, and the address, ending in [/v/], under which its
    version documents the error types. *)
Class Lax := {
  str_as_int : string -> option Z;
  (** [inr reason] when the text is no timestamp. *)
  str_as_datetime : string -> datetime + string;
  refused_int : string -> int_refusal;
  refused_datetime : string -> datetime_refusal;
  errors_url : string
}.

(** A cell of a row as [csv.DictReader] yields it: a [str], or [None]
    for a column that a short line leaves out. *)
Inductive cell :=
| Str (s : string)
| NoneCell.

Definition obj_of_cell (c : cell) : pyobj :=
  match c with
  | Str s => PyStr s
  | NoneCell => PyNone
  end.

Definition obj_of_row (raw : gmap string cell) : pyobj :=
  PyDict (prod_map id obj_of_cell <$> map_to_list raw).

Inductive error_type :=
| missing
| string_type
| string_too_short
| int_type
| int_parsing
| int_parsing_size
| greater_than_equal
| literal_error
| datetime_type
| datetime_parsing
| datetime_from_date_parsing
| value_error.

Definition type_name (t : error_type) : string :=
  match t with
  | missing => "missing"
  | string_type => "string_type"
  | string_too_short => "string_too_short"
  | int_type => "int_type"
  | int_parsing => "int_parsing"
  | int_parsing_size => "int_parsing_size"
  | greater_than_equal => "greater_than_equal"
  | literal_error => "literal_error"
  | datetime_type => "datetime_type"
  | datetime_parsing => "datetime_parsing"
  | datetime_from_date_parsing => "datetime_from_date_parsing"
  | value_error => "value_error"
  end.

(** One entry of [ValidationError.errors()], without its [url], which
    [error_dict] adds from the type. *)
Record ErrorDetail := mk_error {
  etype : error_type;
  loc : string;
  msg : string;
  input : pyobj;
  ctx : list (string * pyobj)
}.

(** The dict that [errors()] returns for an entry: [ctx] is present
    only when it holds something, and [url] comes last. *)
Definition error_dict `{Lax} (e : ErrorDetail) : pyobj :=
  PyDict ([("type", PyStr (type_name (etype e)));
           ("loc", PyTuple [PyStr (loc e)]);
           ("msg", PyStr (msg e));
           ("input", input e)]
          ++ match ctx e with
             | [] => []
             | c => [("ctx", PyDict c)]
             end
          ++ [("url", PyStr (errors_url +:+ type_name (etype e)))]).

(** Result of validating one field: the typed value, one error entry,
    or an exception that is no validation error and propagates. *)
Inductive checked (A : Type) :=
| Pass (a : A)
| Fail (e : ErrorDetail)
| Crash (x : exn).
Arguments Pass {A} a.
Arguments Fail {A} e.
Arguments Crash {A} x.

Definition and_then {A B} (r : checked A) (k : A -> checked B) : checked B :=
  match r with
  | Pass a => k a
  | Fail e => Fail e
  | Crash x => Crash x
  end.

(** Annotation [str]: only a [str] input is accepted. *)
Definition str_validator (name : string) (c : cell) : checked string :=
  match c with
  | Str s => Pass s
  | NoneCell => Fail (mk_error string_type name "Input should be a valid string" (obj_of_cell c) [])
  end.

(** [Field(min_length=n)] on a string ([msg] is the text for [n = 1],
    the only bound the model declares). *)
Definition min_length (n : Z) (name : string) (c : cell) (s : string) : checked string :=
  if len s <? n then
    Fail (mk_error string_too_short name "String should have at least 1 character"
            (obj_of_cell c) [("min_length", PyInt n)])
  else Pass s.

(** Annotation [int] in lax mode: a [str] input is converted. *)
Definition int_validator `{Lax} (name : string) (c : cell) : checked Z :=
  match c with
  | Str s =>
      match str_as_int s with
      | Some n => Pass n
      | None =>
          match refused_int s with
          | not_an_integer =>
              Fail (mk_error int_parsing name
                      "Input should be a valid integer, unable to parse string as an integer"
                      (obj_of_cell c) [])
          | integer_too_long =>
              Fail (mk_error int_parsing_size name
                      "Unable to parse input string as an integer, exceeded maximum size"
                      (obj_of_cell c) [])
          end
      end
  | NoneCell => Fail (mk_error int_type name "Input should be a valid integer" (obj_of_cell c) [])
  end.

(** [Field(ge=b)] on an integer ([msg] is the text for [b = 0], the
    only bound the model declares). *)
Definition ge (b : Z) (name : string) (c : cell) (n : Z) : checked Z :=
  if n <? b then
    Fail (mk_error greater_than_equal name "Input should be greater than or equal to 0"
            (obj_of_cell c) [("ge", PyInt b)])
  else Pass n.

(** Annotation [Literal[...]]: the input must equal one of the listed
    strings; [expected] is the library's rendering of that list. *)
Definition literal_validator (allowed : list string) (expected : string)
    (name : string) (c : cell) : checked string :=
  match c with
  | Str s =>
      if existsb (String.eqb s) allowed then Pass s
      else Fail (mk_error literal_error name ("Input should be " +:+ expected)
                   (obj_of_cell c) [("expected", PyStr expected)])
  | NoneCell =>
      Fail (mk_error literal_error name ("Input should be " +:+ expected)
              (obj_of_cell c) [("expected", PyStr expected)])
  end.

(** Annotation [datetime] in lax mode: a [str] input is parsed. *)
Definition datetime_validator `{Lax} (name : string) (c : cell) : checked datetime :=
  match c with
  | Str s =>
      match str_as_datetime s with
      | inl v => Pass v
      | inr reason =>
          match refused_datetime s with
          | not_a_datetime =>
              Fail (mk_error datetime_parsing name
                      ("Input should be a valid datetime, " +:+ reason)
                      (obj_of_cell c) [("error", PyStr reason)])
          | not_a_datetime_or_date =>
              Fail (mk_error datetime_from_date_parsing name
                      ("Input should be a valid datetime or date, " +:+ reason)
                      (obj_of_cell c) [("error", PyStr reason)])
          end
      end
  | NoneCell => Fail (mk_error datetime_type name "Input should be a valid datetime" (obj_of_cell c) [])
  end.

(** A [field_validator] hook in the default (after) mode: it runs on
    the value the inner validation produced. A [ValueError] it raises
    becomes a [value_error] entry, which [errors()] reports with the
    exception instance itself under [ctx], as
    [{'error': ValueError(...)}]; any other exception propagates. *)
Definition after {A} (f : A -> outcome A) (name : string) (c : cell) (a : A) : checked A :=
  match f a with
  | Return b => Pass b
  | Raise (ValueError m) =>
      Fail (mk_error value_error name ("Value error, " +:+ m) (obj_of_cell c)
              [("error", PyExc (ValueError m))])
  | Raise x => Crash x
  end.

(** Validation of one declared field of a dict input: a missing key is
    an error whose [input] is the whole dict. *)
Definition field {A} (raw : gmap string cell) (name : string)
    (v : string -> cell -> checked A) : checked A :=
  match raw !! name with
  | Some c => v name c
  | None => Fail (mk_error missing name "Field required" (obj_of_row raw) [])
  end.

Definition errors_of {A} (r : checked A) : list ErrorDetail :=
  match r with
  | Fail e => [e]
  | _ => []
  end.

(** Outcome of [Model.model_validate]: the instance, or the
    [ValidationError] with its entries. *)
Inductive validation (A : Type) :=
| Built (a : A)
| ValidationError (errors : list ErrorDetail).
Arguments Built {A} a.
Arguments ValidationError {A} errors.

(** Rendering of a [datetime] by [model_dump(mode="json")]:
    [YYYY-MM-DDTHH:MM:SS], six fraction digits when the microsecond is
    not zero, then [Z] for a zero offset, [+HH:MM] or [-HH:MM] for
    another offset and nothing for a naive value. *)
Fixpoint digits (w : nat) (n : Z) (acc : string) : string :=
  match w with
  | O => acc
  | S w' => digits w' (n / 10) (String (ascii_of_N (48 + Z.to_N (n mod 10))) acc)
  end.

Definition render_clock (v : datetime) : string :=
  digits 4 (year v) "" +:+ "-" +:+ digits 2 (month v) "" +:+ "-" +:+ digits 2 (day v) ""
  +:+ "T" +:+ digits 2 (hour v) "" +:+ ":" +:+ digits 2 (minute v) "" +:+ ":"
  +:+ digits 2 (second v) ""
  +:+ (if microsecond v =? 0 then "" else "." +:+ digits 6 (microsecond v) "").

Definition render_offset (tz : option Z) : string :=
  match tz with
  | None => ""
  | Some off =>
      if off =? 0 then "Z"
      else (if off <? 0 then "-" else "+")
           +:+ digits 2 (Z.abs off / 3600) "" +:+ ":" +:+ digits 2 (Z.abs off mod 3600 / 60) ""
  end.

Definition render_datetime (v : datetime) : string :=
  render_clock v +:+ render_offset (tzinfo v).

End Pydantic.

(** ** src/lambda/models.py *)

Module models.
Import Py Pydantic.

(** An instance of the model [CardTransaction] (models.py, 7-24). *)
Record CardTransaction := mk_transaction {
  id : string;
  organization_id : string;
  amount : Z;
  currency : string;
  status : string;
  created_at : datetime
}.

(** [CardTransaction.not_empty] (models.py, 26-32). *)
Definition not_empty (v : string) : outcome string :=
  if negb (truthy v) || negb (truthy (strip v)) then
    Raise (ValueError "must be non-empty")
  else Return v.

(** [CardTransaction.ensure_utc] (models.py, 34-43). *)
Definition ensure_utc (v : datetime) : outcome datetime :=
  if bool_decide (tzinfo v = None)
     || negb (bool_decide (utcoffset v = timezone_utc_utcoffset v)) then
    Raise (ValueError "created_at must be a UTC timestamp")
  else Return v.

(** The validation chain of each declared field. *)
Definition validate_id (name : string) (c : cell) : checked string :=
  and_then (and_then (str_validator name c) (min_length 1 name c)) (after not_empty name c).

Definition validate_amount `{Lax} (name : string) (c : cell) : checked Z :=
  and_then (int_validator name c) (ge 0 name c).

Definition validate_currency : string -> cell -> checked string :=
  literal_validator ["EUR"; "USD"; "GBP"] "'EUR', 'USD' or 'GBP'".

Definition validate_status : string -> cell -> checked string :=
  literal_validator ["Success"; "Error"; "Pending"] "'Success', 'Error' or 'Pending'".

Definition validate_created_at `{Lax} (name : string) (c : cell) : checked datetime :=
  and_then (datetime_validator name c) (after ensure_utc name c).

Definition value_of {A} (r : checked A) : option A :=
  match r with
  | Pass a => Some a
  | _ => None
  end.

Definition crash_of {A} (r : checked A) : option exn :=
  match r with
  | Crash x => Some x
  | _ => None
  end.

(** [CardTransaction.model_validate(raw)] for a dict [raw]: the fields
    are validated in declaration order, every failing field adds its
    entry, and keys that name no field are ignored. *)
Definition model_validate `{Lax} (raw : gmap string cell) : outcome (validation CardTransaction) :=
  let r1 := field raw "id" validate_id in
  let r2 := field raw "organization_id" validate_id in
  let r3 := field raw "amount" validate_amount in
  let r4 := field raw "currency" validate_currency in
  let r5 := field raw "status" validate_status in
  let r6 := field raw "created_at" validate_created_at in
  match crash_of r1 ∪ crash_of r2 ∪ crash_of r3 ∪ crash_of r4 ∪ crash_of r5 ∪ crash_of r6 with
  | Some x => Raise x
  | None =>
      match (a1 ← value_of r1; a2 ← value_of r2; a3 ← value_of r3;
             a4 ← value_of r4; a5 ← value_of r5; a6 ← value_of r6;
             Some (mk_transaction a1 a2 a3 a4 a5 a6)) with
      | Some obj => Return (Built obj)
      | None =>
          Return (ValidationError
                    (errors_of r1 ++ errors_of r2 ++ errors_of r3
                     ++ errors_of r4 ++ errors_of r5 ++ errors_of r6))
      end
  end.

(** What [validate_record] returns: [(True, obj, None)] or
    [(False, raw, errors)]. *)
Inductive result :=
| Accepted (obj : CardTransaction)
| Rejected (raw : gmap string cell) (errors : list ErrorDetail).

(** [validate_record] (models.py, 46-61): only [ValidationError] is
    caught. *)
Definition validate_record `{Lax} (raw : gmap string cell) : outcome result :=
  r ← model_validate raw;
  match r with
  | Built obj => Return (Accepted obj)
  | ValidationError errors => Return (Rejected raw errors)
  end.

(** [value.model_dump(mode="json")]. *)
Definition model_dump (value : CardTransaction) : pyobj :=
  PyDict [("id", PyStr (id value));
          ("organization_id", PyStr (organization_id value));
          ("amount", PyInt (amount value));
          ("currency", PyStr (currency value));
          ("status", PyStr (status value));
          ("created_at", PyStr (render_datetime (created_at value)))].

End models.

(** ** src/lambda/app.py *)

Module app.
Import Py Pydantic models.

(** [_build_output_keys] (app.py, 41-60). *)
Definition _build_output_keys (input_key : string) : outcome (string * string) :=
  if negb (endswith input_key ".csv") then
    Raise (ValueError ("Unexpected input key extension (expected .csv): " +:+ input_key))
  else
    let base := drop_last 4 input_key in
    let valid_key := base +:+ "_valid.jsonl" in
    let invalid_key := base +:+ "_invalid.jsonl" in
    Return (valid_key, invalid_key).

(** The object passed to [json.dumps] for a rejected row
    (app.py, 100-105). *)
Definition rejected_record `{Lax} (row : gmap string cell) (errors : list ErrorDetail)
    : pyobj :=
  PyDict [("row", obj_of_row row); ("errors", PyList (error_dict <$> errors))].

(** One iteration of the row loop (app.py, 92-106) on the two
    accumulators [valid_lines] and [invalid_lines]. *)
Definition step `{Lax} (acc : list json * list json) (row : gmap string cell)
    : outcome (list json * list json) :=
  let '(valid_lines, invalid_lines) := acc in
  r ← validate_record row;
  match r with
  | Accepted value =>
      line ← json_dumps (model_dump value);
      Return (valid_lines ++ [line], invalid_lines)
  | Rejected _ errors =>
      line ← json_dumps (rejected_record row errors);
      Return (valid_lines, invalid_lines ++ [line])
  end.

Fixpoint loop `{Lax} (acc : list json * list json) (rows : list (gmap string cell))
    : outcome (list json * list json) :=
  match rows with
  | [] => Return acc
  | row :: rest => acc' ← step acc row; loop acc' rest
  end.

(** One [s3.put_object] call; [Body] is the payload as its sequence of
    lines (they are joined by a newline in the source). *)
Record put_object := mk_put {
  Bucket : string;
  Key : string;
  Body : list json;
  ContentType : string
}.

(** The guarded write of one payload (app.py, 112-119 and 122-129). *)
Definition emit (bucket key : string) (lines : list json) : list put_object :=
  match lines with
  | [] => []
  | _ :: _ => [mk_put bucket key lines "application/json"]
  end.

Record summary := mk_summary {
  landing_bucket : string;
  input_key : string;
  green_bucket : string;
  valid_key : string;
  invalid_key : string;
  valid_count : Z;
  invalid_count : Z
}.

(** [handler] (app.py, 63-142) from step 3 on. The bucket and key
    taken from the event, the target bucket taken from the
    environment and the rows read from the CSV object are parameters;
    the result is the returned dict and the [put_object] calls made,
    in order. *)
Definition handler `{Lax} (landing : string) (key : string) (green : string)
    (rows : list (gmap string cell)) : outcome (summary * list put_object) :=
  '(valid_lines, invalid_lines) ← loop ([], []) rows;
  '(vkey, ikey) ← _build_output_keys key;
  let puts := emit green vkey valid_lines ++ emit green ikey invalid_lines in
  Return (mk_summary landing key green vkey ikey
            (Z.of_nat (length valid_lines)) (Z.of_nat (length invalid_lines)),
          puts).

End app.

(** ** A reference instance of the lax conversions

    Used only to run the embedding on concrete rows, such as the two
    rows of section 8 of the specification. It reads plain signed
    decimal numerals of at most 4300 characters as integers; as
    timestamps it reads texts written [YYYY-MM-DDTHH:MM:SS] followed by
    nothing, [Z], [+HH:MM] or [-HH:MM], and texts of decimal digits as
    Unix time. The library converts more texts than these (an integer
    written [1.0] or between blanks, a date alone, a fraction of the
    second), and words the reason of each refusal; here every refusal
    has one reason. *)

Module reference.
Import Py Pydantic.

Definition digit (c : ascii) : option Z :=
  let n := N_of_ascii c in
  if (48 <=? n)%N && (n <=? 57)%N then Some (Z.of_N n - 48) else None.

Fixpoint decimal_from (acc : Z) (s : string) : option Z :=
  match s with
  | EmptyString => Some acc
  | String c r => d ← digit c; decimal_from (10 * acc + d) r
  end.

Definition decimal (s : string) : option Z :=
  match s with
  | EmptyString => None
  | _ => decimal_from 0 s
  end.

Definition parse_int (s : string) : option Z :=
  if (4300 <? String.length s)%nat then None
  else
    match s with
    | String "-" r => Z.opp <$> decimal r
    | String "+" r => decimal r
    | _ => decimal s
    end.

(** [s[i:j]] *)
Definition slice (i j : nat) (s : string) : string := slice_to (j - i) (slice_from i s).

Definition in_range (lo hi n : Z) : option Z :=
  if (lo <=? n) && (n <=? hi) then Some n else None.

Definition parse_offset (s : string) : option (option Z) :=
  match s with
  | EmptyString => Some None
  | "Z" => Some (Some 0)
  | String sign r =>
      if bool_decide (String.length r = 5%nat) && String.eqb (slice 2 3 r) ":" then
        hh ← decimal (slice 0 2 r) ≫= in_range 0 23;
        mm ← decimal (slice 3 5 r) ≫= in_range 0 59;
        if Ascii.eqb sign "+" then Some (Some (hh * 3600 + mm * 60))
        else if Ascii.eqb sign "-" then Some (Some (- (hh * 3600 + mm * 60)))
        else None
      else None
  end.

(** A timestamp written [YYYY-MM-DDTHH:MM:SS] and an offset, with a
    year from [min_year] on. *)
Definition parse_iso (min_year : Z) (s : string) : option datetime :=
  if String.eqb (slice 4 5 s) "-" && String.eqb (slice 7 8 s) "-"
     && String.eqb (slice 10 11 s) "T" && String.eqb (slice 13 14 s) ":"
     && String.eqb (slice 16 17 s) ":" then
    y ← decimal (slice 0 4 s) ≫= in_range min_year 9999;
    mo ← decimal (slice 5 7 s) ≫= in_range 1 12;
    d ← decimal (slice 8 10 s) ≫= in_range 1 31;
    h ← decimal (slice 11 13 s) ≫= in_range 0 23;
    mi ← decimal (slice 14 16 s) ≫= in_range 0 59;
    se ← decimal (slice 17 19 s) ≫= in_range 0 59;
    tz ← parse_offset (slice_from 19 s);
    Some (mk_datetime y mo d h mi se 0 tz)
  else None.

(** The date of the day that is [days] days after 1970-01-01 in the
    proleptic Gregorian calendar. *)
Definition civil_from_days (days : Z) : Z * Z * Z :=
  let z := days + 719468 in
  let era := z / 146097 in
  let doe := z - era * 146097 in
  let yoe := (doe - doe / 1460 + doe / 36524 - doe / 146096) / 365 in
  let doy := doe - (365 * yoe + yoe / 4 - yoe / 100) in
  let mp := (5 * doy + 2) / 153 in
  let d := doy - (153 * mp + 2) / 5 + 1 in
  let m := if mp <? 10 then mp + 3 else mp - 9 in
  ((yoe + era * 400) + (if m <=? 2 then 1 else 0), m, d).

(** Unix time: a number up to 2 * 10^10 counts seconds since
    1970-01-01T00:00:00Z, a larger one milliseconds; the timestamp has
    offset zero. *)
Definition from_unix (n : Z) : option datetime :=
  let secs := if n <=? 20000000000 then n else n / 1000 in
  let us := if n <=? 20000000000 then 0 else n mod 1000 * 1000 in
  let '(y, m, d) := civil_from_days (secs / 86400) in
  let clock := secs mod 86400 in
  if y <=? 9999 then
    Some (mk_datetime y m d (clock / 3600) (clock mod 3600 / 60) (clock mod 60) us (Some 0))
  else None.

(** The conversion to a timestamp: the written form above, or, as the
    library does in lax mode, a text of decimal digits read as Unix
    time. *)
Definition parse_datetime (s : string) : datetime + string :=
  match parse_iso 1 s with
  | Some v => inl v
  | None =>
      match decimal s ≫= from_unix with
      | Some v => inl v
      | None => inr "invalid datetime"
      end
  end.

#[export] Instance lax : Lax := {|
  str_as_int := parse_int;
  str_as_datetime := parse_datetime;
  refused_int s :=
    if (4300 <? String.length s)%nat then integer_too_long else not_an_integer;
  refused_datetime s :=
    match parse_iso 0 s with
    | Some _ => not_a_datetime
    | None => not_a_datetime_or_date
    end;
  errors_url := "https://errors.pydantic.dev/2.9/v/"
|}.

Definition row (i o a c s t : string) : gmap string cell :=
  list_to_map [("id", Str i); ("organization_id", Str o); ("amount", Str a);
               ("currency", Str c); ("status", Str s); ("created_at", Str t)].

(** The two rows of section 8 of the specification. *)
Definition good_row : gmap string cell :=
  row "1" "org1" "100" "EUR" "Success" "2025-11-10T10:00:00+00:00".

Definition bad_row : gmap string cell :=
  row "" "org1" "-5" "XXX" "Done" "2025-11-10T10:00:00".

(** A row whose only defect is a timestamp without an offset. *)
Definition naive_row : gmap string cell :=
  row "2" "org1" "7" "USD" "Pending" "2025-11-10T10:00:00".

(** A row whose only defect is an [id] made of one space. *)
Definition blank_row : gmap string cell :=
  row " " "org1" "7" "USD" "Pending" "2025-11-10T10:00:00Z".

(** A row whose [created_at] is a text of digits: no date, no time
    and no offset are written in it. *)
Definition unix_row : gmap string cell :=
  row "5" "org1" "10" "EUR" "Success" "1731232800".

(** A row whose only defect is a negative amount. *)
Definition negative_row : gmap string cell :=
  row "3" "org1" "-1" "GBP" "Error" "2025-11-10T11:30:00Z".

(** Another row whose only defect is a negative amount. *)
Definition overdrawn_row : gmap string cell :=
  row "6" "org2" "-20" "EUR" "Pending" "2025-11-10T12:45:00Z".

(** A batch with two different rejected rows around an accepted one,
    and what the handler returns on it. *)
Definition mixed_batch : list (gmap string cell) :=
  [negative_row; good_row; overdrawn_row].

Definition mixed_result : app.summary * list app.put_object :=
  Eval vm_compute in
    match app.handler "landing-zone-datalake" "a/b/card_transaction_2025-11-10.csv"
            "green-zone-datalake" mixed_batch with
    | Return x => x
    | Raise _ => (app.mk_summary "" "" "" "" "" 0 0, [])
    end.

(** What the handler returns on the batch of the single valid row. *)
Definition single_result : app.summary * list app.put_object :=
  Eval vm_compute in
    match app.handler "landing-zone-datalake" "a/b/card_transaction_2025-11-10.csv"
            "green-zone-datalake" [good_row] with
    | Return x => x
    | Raise _ => (app.mk_summary "" "" "" "" "" 0 0, [])
    end.

(** The entries that [validate_record] returns for [bad_row]. *)
Definition bad_errors : list ErrorDetail :=
  [mk_error string_too_short "id" "String should have at least 1 character"
     (PyStr "") [("min_length", PyInt 1)];
   mk_error greater_than_equal "amount" "Input should be greater than or equal to 0"
     (PyStr "-5") [("ge", PyInt 0)];
   mk_error literal_error "currency" "Input should be 'EUR', 'USD' or 'GBP'"
     (PyStr "XXX") [("expected", PyStr "'EUR', 'USD' or 'GBP'")];
   mk_error literal_error "status" "Input should be 'Success', 'Error' or 'Pending'"
     (PyStr "Done") [("expected", PyStr "'Success', 'Error' or 'Pending'")];
   mk_error value_error "created_at" "Value error, created_at must be a UTC timestamp"
     (PyStr "2025-11-10T10:00:00")
     [("error", PyExc (ValueError "created_at must be a UTC timestamp"))]].

End reference.

(** ** The rules of the specification

    Section 4.1 of the specification states one rule per field. In
    [rule], the words "parseable as an integer" and "parseable as a
    timestamp" are read as: the conversion of the library accepts the
    text, and "explicit offset" as: the converted timestamp carries an
    offset. Which texts that is, is decided by the conversions [Lax];
    module [wording] below reads rule 5 on the text itself. *)

Module spec.
Import Py Pydantic.

Inductive field_id :=
| f_id
| f_organization_id
| f_amount
| f_currency
| f_status
| f_created_at.

#[export] Instance field_id_eq_dec : EqDecision field_id.
Proof. solve_decision. Defined.

Definition fields : list field_id :=
  [f_id; f_organization_id; f_amount; f_currency; f_status; f_created_at].

Definition name (f : field_id) : string :=
  match f with
  | f_id => "id"
  | f_organization_id => "organization_id"
  | f_amount => "amount"
  | f_currency => "currency"
  | f_status => "status"
  | f_created_at => "created_at"
  end.

(** Rules 1 to 5 on the string value of a field. *)
Definition rule `{Lax} (f : field_id) (s : string) : bool :=
  match f with
  | f_id | f_organization_id =>
      (* after trimming whitespace, the length is not zero *)
      negb (String.length (strip s) =? 0)%nat
  | f_amount =>
      (* parseable as an integer, and the parsed value is not < 0 *)
      match str_as_int s with
      | Some n => negb (n <? 0)
      | None => false
      end
  | f_currency =>
      String.eqb s "EUR" || String.eqb s "USD" || String.eqb s "GBP"
  | f_status =>
      String.eqb s "Success" || String.eqb s "Error" || String.eqb s "Pending"
  | f_created_at =>
      (* parseable, with an explicit offset equal to zero *)
      match str_as_datetime s with
      | inl v =>
          match utcoffset v with
          | Some off => off =? 0
          | None => false
          end
      | inr _ => false
      end
  end.

(** A field of a row satisfies its rule when the row has a string
    under the field's name and that string passes the rule. *)
Definition satisfied `{Lax} (raw : gmap string cell) (f : field_id) : bool :=
  match raw !! name f with
  | Some (Str s) => rule f s
  | _ => false
  end.

(** The violated fields of a row, in declaration order. *)
Definition violated `{Lax} (raw : gmap string cell) : list field_id :=
  List.filter (fun f => negb (satisfied raw f)) fields.

(** The instance holds the inputs of the row: the string fields as
    they are, [amount] as the integer its text converts to and
    [created_at] as the timestamp its text converts to, which carries
    a zero offset. *)
Definition coerced_from `{Lax} (raw : gmap string cell)
    (obj : models.CardTransaction) : Prop :=
  raw !! "id" = Some (Str (models.id obj))
  /\ raw !! "organization_id" = Some (Str (models.organization_id obj))
  /\ (exists a, raw !! "amount" = Some (Str a)
                /\ str_as_int a = Some (models.amount obj) /\ 0 <= models.amount obj)
  /\ raw !! "currency" = Some (Str (models.currency obj))
  /\ raw !! "status" = Some (Str (models.status obj))
  /\ (exists t, raw !! "created_at" = Some (Str t)
                /\ str_as_datetime t = inl (models.created_at obj)
                /\ tzinfo (models.created_at obj) = Some 0).

(** Timestamp texts of ISO 8601 with the UTC designator:
    [YYYY-MM-DDTHH:MM:SSZ], with six fraction digits or none. In a
    pattern, [d] stands for one decimal digit. *)
Definition is_digit (c : ascii) : bool :=
  let n := N_of_ascii c in (48 <=? n)%N && (n <=? 57)%N.

Fixpoint matches (pattern s : string) : bool :=
  match pattern, s with
  | EmptyString, EmptyString => true
  | String p pattern', String c s' =>
      (if Ascii.eqb p "d" then is_digit c else Ascii.eqb p c) && matches pattern' s'
  | _, _ => false
  end.

(** The pattern of [w] digits followed by [pattern]. *)
Fixpoint ds (w : nat) (pattern : string) : string :=
  match w with
  | O => pattern
  | S w' => String "d" (ds w' pattern)
  end.

Definition iso8601_utc (s : string) : bool :=
  matches "dddd-dd-ddTdd:dd:ddZ" s || matches "dddd-dd-ddTdd:dd:dd.ddddddZ" s.

(** The JSON value that encodes a cell without coercion. *)
Definition json_of_cell (c : cell) : json :=
  match c with
  | Str s => JString s
  | NoneCell => JNull
  end.

Definition json_of_cells (l : list (string * cell)) : list (string * json) :=
  prod_map Datatypes.id json_of_cell <$> l.

(** The JSON object that encodes a row verbatim. *)
Definition json_of_row (raw : gmap string cell) : json :=
  JObject (json_of_cells (map_to_list raw)).

(** Reading a row back from the JSON object that encodes it. *)
Definition cell_of_json (j : json) : option cell :=
  match j with
  | JString s => Some (Str s)
  | JNull => Some NoneCell
  | _ => None
  end.

Definition row_of_json (j : json) : option (gmap string cell) :=
  match j with
  | JObject ms =>
      list_to_map <$> mapM (fun '(k, v) => c ← cell_of_json v; Some (k, c)) ms
  | _ => None
  end.

End spec.

(** ** Rule 5 on the text of a timestamp

    Rule 5 of section 4.1 asks for a text that is "parseable as an
    ISO-8601 timestamp" and whose offset is "explicit and equal to
    UTC"; the docstring of [CardTransaction] asks for "a valid ISO8601
    UTC timestamp". The definitions of this module follow these words
    on the text itself, through no conversion: a calendar date and a
    time of day in the extended format [YYYY-MM-DDThh:mm:ss] or the
    basic format [YYYYMMDDThhmmss], an optional decimal fraction of the
    second, and an optional zone designator: [Z], or a sign with [hh],
    [hhmm] or [hh:mm]. The numbers are not checked against their ranges,
    so the recogniser accepts more texts than the standard does. *)

Module wording.
Import Py Pydantic spec.

Fixpoint skip_digits (s : string) : string :=
  match s with
  | String c r => if is_digit c then skip_digits r else s
  | EmptyString => EmptyString
  end.

(** What follows an optional decimal fraction at the head of [s]; a
    decimal sign without a digit after it is no fraction. *)
Definition after_fraction (s : string) : option string :=
  match s with
  | String c r =>
      if Ascii.eqb c "." || Ascii.eqb c "," then
        match r with
        | String d _ => if is_digit d then Some (skip_digits r) else None
        | EmptyString => None
        end
      else Some s
  | EmptyString => Some EmptyString
  end.

(** What follows the date and the time of day of [s]: the zone
    designator, or the empty text. *)
Definition zone_of (s : string) : option string :=
  if matches "dddd-dd-ddTdd:dd:dd" (slice_to 19 s) then after_fraction (slice_from 19 s)
  else if matches "ddddddddTdddddd" (slice_to 15 s) then after_fraction (slice_from 15 s)
  else None.

Definition zone_designator (z : string) : bool :=
  String.eqb z "Z"
  || match z with
     | String sign r =>
         (Ascii.eqb sign "+" || Ascii.eqb sign "-")
         && (matches "dd" r || matches "dddd" r || matches "dd:dd" r)
     | EmptyString => false
     end.

(** A zone designator that states the offset zero. *)
Definition utc_designator (z : string) : bool :=
  existsb (String.eqb z) ["Z"; "+00"; "+0000"; "+00:00"; "-00"; "-0000"; "-00:00"].

(** "parseable as an ISO-8601 timestamp" *)
Definition iso8601_timestamp (s : string) : bool :=
  match zone_of s with
  | Some z => String.eqb z "" || zone_designator z
  | None => false
  end.

(** "offset must be explicit and equal to UTC" *)
Definition explicit_utc_offset (s : string) : bool :=
  match zone_of s with
  | Some z => utc_designator z
  | None => false
  end.

(** Rule 5 on the text of [created_at]. *)
Definition rule_5 (s : string) : bool := iso8601_timestamp s && explicit_utc_offset s.

(** The ranges of the fields of a [datetime.datetime] object. *)
Definition in_ranges (v : datetime) : Prop :=
  1 <= year v <= 9999 /\ 1 <= month v <= 12 /\ 1 <= day v <= 31
  /\ 0 <= hour v <= 23 /\ 0 <= minute v <= 59 /\ 0 <= second v <= 59
  /\ 0 <= microsecond v <= 999999.

(** Reading a number of [w] decimal digits at the head of a text. *)
Fixpoint read_number (w : nat) (acc : Z) (s : string) : option (Z * string) :=
  match w with
  | O => Some (acc, s)
  | S w' =>
      match s with
      | String c r =>
          if is_digit c then read_number w' (10 * acc + (Z.of_N (N_of_ascii c) - 48)) r
          else None
      | EmptyString => None
      end
  end.

Definition expect (c : ascii) (s : string) : option string :=
  match s with
  | String c' r => if Ascii.eqb c c' then Some r else None
  | EmptyString => None
  end.

(** The timestamp that a text [YYYY-MM-DDThh:mm:ssZ], with six
    fraction digits or none, denotes: the instant of these numbers at
    offset zero. *)
Definition read_utc (s : string) : option datetime :=
  '(y, s) ← read_number 4 0 s;
  s ← expect "-" s;
  '(mo, s) ← read_number 2 0 s;
  s ← expect "-" s;
  '(d, s) ← read_number 2 0 s;
  s ← expect "T" s;
  '(h, s) ← read_number 2 0 s;
  s ← expect ":" s;
  '(mi, s) ← read_number 2 0 s;
  s ← expect ":" s;
  '(se, s) ← read_number 2 0 s;
  match s with
  | "Z" => Some (mk_datetime y mo d h mi se 0 (Some 0))
  | String "." r =>
      '(us, s) ← read_number 6 0 r;
      if String.eqb s "Z" then Some (mk_datetime y mo d h mi se us (Some 0)) else None
  | _ => None
  end.

End wording.

(** ** Auxiliary predicates of the statements *)

Module aux.
Import Py Pydantic spec.

(** What the validation of one field yields, against its rule:
    the typed value [a] obtained from the string [s] of a satisfied
    field, or one error entry located at a violated field. *)
Inductive field_case `{Lax} {A} (raw : gmap string cell) (f : field_id)
    (r : checked A) (P : string -> A -> Prop) : Prop :=
| case_pass s a :
    r = Pass a -> raw !! name f = Some (Str s) -> P s a ->
    satisfied raw f = true -> field_case raw f r P
| case_fail e :
    r = Fail e -> loc e = name f ->
    satisfied raw f = false -> field_case raw f r P.

(** A row on which a [field_validator] hook raises: an [id] or
    [organization_id] that is not empty but holds whitespace only, or a
    [created_at] that converts to a timestamp without a zero offset. *)
Definition blank (c : option cell) : bool :=
  match c with
  | Some (Str s) => truthy s && negb (truthy (strip s))
  | _ => false
  end.

Definition non_utc `{Lax} (c : option cell) : bool :=
  match c with
  | Some (Str t) =>
      match str_as_datetime t with
      | inl v => negb (bool_decide (tzinfo v = Some 0))
      | inr _ => false
      end
  | _ => false
  end.

Definition hook_fails `{Lax} (raw : gmap string cell) : bool :=
  blank (raw !! "id") || blank (raw !! "organization_id") || non_utc (raw !! "created_at").

(** The exception of [json.dumps] on a [ValueError] instance. *)
Definition not_serializable : exn :=
  TypeError "Object of type ValueError is not JSON serializable".

(** A list of entries that [json.dumps] encodes, and one on which it
    raises [not_serializable]. *)
Definition encodes `{Lax} (es : list ErrorDetail) : Prop :=
  exists js, dumps_all (error_dict <$> es) = Return js.

Definition chokes `{Lax} (es : list ErrorDetail) : Prop :=
  dumps_all (error_dict <$> es) = Raise not_serializable.

(** Whether [validate_record] accepts a row. *)
Definition accepted `{Lax} (row : gmap string cell) : bool :=
  match models.validate_record row with
  | Return (models.Accepted _) => true
  | _ => false
  end.

(** [line] is the output line of the accepted row [row]. *)
Definition valid_line `{Lax} (row : gmap string cell) (line : json) : Prop :=
  exists obj, models.validate_record row = Return (models.Accepted obj)
              /\ json_dumps (models.model_dump obj) = Return line.

(** [line] is the output line of the rejected row [row]. *)
Definition invalid_line `{Lax} (row : gmap string cell) (line : json) : Prop :=
  exists errors, models.validate_record row = Return (models.Rejected row errors)
                 /\ json_dumps (app.rejected_record row errors) = Return line.

End aux.

(** ** src/lambda/app.py: the event of an invocation

    An event is the dict decoded from the JSON document of the
    invocation; its values are JSON values (numbers are integers here:
    a float behaves like an integer in every operation used). The
    exceptions of subscripting carry no message. *)

Module event.

Inductive value :=
| VNone
| VBool (b : bool)
| VInt (n : Z)
| VStr (s : string)
| VList (l : list value)
| VDict (d : gmap string value).

#[export] Instance value_inhabited : Inhabited value := populate VNone.

(** A subscript: a string key or an integer position. *)
Inductive index :=
| Name (k : string)
| Pos (n : Z).

Inductive exc :=
| ValueError (msg : string)
| KeyError (k : index)
| IndexError
| TypeError.

Inductive outcome (A : Type) :=
| Return (a : A)
| Raise (e : exc).
Arguments Return {A} a.
Arguments Raise {A} e.

Definition bind {A B} (m : outcome A) (k : A -> outcome B) : outcome B :=
  match m with
  | Return a => k a
  | Raise e => Raise e
  end.

(** Truth value of an object in a condition. *)
Definition truth (v : value) : bool :=
  match v with
  | VNone => false
  | VBool b => b
  | VInt n => negb (n =? 0)
  | VStr s => Py.truthy s
  | VList l => match l with [] => false | _ :: _ => true end
  | VDict d => negb (Nat.eqb (size d) 0)
  end.

(** [l[n]] on a sequence: a negative position counts from the end. *)
Definition item {A} (l : list A) (n : Z) : option A :=
  if 0 <=? n then l !! Z.to_nat n
  else if - Z.of_nat (length l) <=? n then l !! Z.to_nat (Z.of_nat (length l) + n)
  else None.

(** [v[i]] *)
Definition getitem (v : value) (i : index) : outcome value :=
  match v with
  | VDict d =>
      match i with
      | Name k => match d !! k with Some x => Return x | None => Raise (KeyError i) end
      | Pos _ => Raise (KeyError i)
      end
  | VList l =>
      match i with
      | Pos n => match item l n with Some x => Return x | None => Raise IndexError end
      | Name _ => Raise TypeError
      end
  | VStr s =>
      match i with
      | Pos n =>
          match item (list_ascii_of_string s) n with
          | Some c => Return (VStr (String c EmptyString))
          | None => Raise IndexError
          end
      | Name _ => Raise TypeError
      end
  | VNone | VBool _ | VInt _ => Raise TypeError
  end.

(** [k in event] *)
Definition contains (event : gmap string value) (k : string) : bool :=
  bool_decide (is_Some (event !! k)).

(** [_extract_bucket_key_from_event] (app.py, 15-38). [event !!! k]
    is [event[k]] where the key is known to be present. *)
Definition _extract_bucket_key_from_event (event : gmap string value)
    : outcome (value * value) :=
  if contains event "bucket" && contains event "key" then
    Return (event !!! "bucket", event !!! "key")
  else if contains event "Records" && truth (event !!! "Records") then
    bind (getitem (event !!! "Records") (Pos 0)) (fun rec =>
    bind (getitem rec (Name "s3")) (fun s3 =>
    bind (getitem s3 (Name "bucket")) (fun b =>
    bind (getitem b (Name "name")) (fun bucket =>
    bind (getitem rec (Name "s3")) (fun s3' =>
    bind (getitem s3' (Name "object")) (fun o =>
    bind (getitem o (Name "key")) (fun key =>
    Return (bucket, key))))))))
  else
    Raise (ValueError "Cannot determine S3 bucket/key from event").

(** The lookups of the notification form, under a name: the part of
    [_extract_bucket_key_from_event] that follows [rec = event["Records"][0]]. *)
Definition from_record (rec : value) : outcome (value * value) :=
  bind (getitem rec (Name "s3")) (fun s3 =>
  bind (getitem s3 (Name "bucket")) (fun b =>
  bind (getitem b (Name "name")) (fun bucket =>
  bind (getitem rec (Name "s3")) (fun s3' =>
  bind (getitem s3' (Name "object")) (fun o =>
  bind (getitem o (Name "key")) (fun key =>
  Return (bucket, key))))))).

(** The member [k] of a dict, when [v] is a dict that has it. *)
Definition member_of (v : value) (k : string) : option value :=
  match v with
  | VDict d => d !! k
  | _ => None
  end.

(** The member reached from [v] through the keys [ks]. *)
Fixpoint path (v : value) (ks : list string) : option value :=
  match ks with
  | [] => Some v
  | k :: ks' => match member_of v k with Some x => path x ks' | None => None end
  end.

End event.

(** ** src/lambda/app.py: the local entry point *)

Module local.
Import Py Pydantic models app.

(** A file opened for writing and the lines written to it, each
    followed by a newline. *)
Record file := mk_file {
  path : string;
  lines : list json
}.

(** The block under [__main__] (app.py, 145-185) from the row loop on.
    [join name] stands for [os.path.join(output_dir, name)]; the rows
    are those of the CSV file read from disk. Both files are opened,
    whatever the two sequences hold. *)
Definition main `{Lax} (join : string -> string) (rows : list (gmap string cell))
    : Py.outcome (list file) :=
  Py.bind (loop ([], []) rows) (fun '(valid_lines, invalid_lines) =>
  let base_name := "card_transaction_2025-11-10" in
  let valid_file := join (base_name +:+ "_valid.jsonl") in
  let invalid_file := join (base_name +:+ "_invalid.jsonl") in
  Return [mk_file valid_file valid_lines; mk_file invalid_file invalid_lines]).

End local.

(** ** Predicates of the further properties *)

Module more.
Import Py Pydantic models.

(** Whether a string has a character that is not whitespace. *)
Fixpoint has_visible (s : string) : bool :=
  match s with
  | EmptyString => false
  | String c r => negb (isspace c) || has_visible r
  end.

(** Two results of validating a field that differ at most in the
    [input] of their entry. *)
Definition alike {A} (r r' : checked A) : Prop :=
  match r, r' with
  | Pass a, Pass a' => a = a'
  | Fail e, Fail e' =>
      etype e = etype e' /\ loc e = loc e' /\ msg e = msg e' /\ ctx e = ctx e'
  | Crash x, Crash x' => x = x'
  | _, _ => False
  end.

(** What is left of an entry without its [input]. *)
Definition headline (e : ErrorDetail) : error_type * string * string * list (string * pyobj) :=
  (etype e, loc e, msg e, ctx e).

(** The declared fields, in order, each with what its validation
    yields on a row, as the entries it adds. *)
Definition entries `{Lax} (raw : gmap string cell) : list ErrorDetail :=
  errors_of (field raw "id" validate_id)
  ++ errors_of (field raw "organization_id" validate_id)
  ++ errors_of (field raw "amount" validate_amount)
  ++ errors_of (field raw "currency" validate_currency)
  ++ errors_of (field raw "status" validate_status)
  ++ errors_of (field raw "created_at" validate_created_at).

(** The instance made of the six validated values, when all six
    fields pass. *)
Definition built `{Lax} (raw : gmap string cell) : option CardTransaction :=
  a1 ← value_of (field raw "id" validate_id);
  a2 ← value_of (field raw "organization_id" validate_id);
  a3 ← value_of (field raw "amount" validate_amount);
  a4 ← value_of (field raw "currency" validate_currency);
  a5 ← value_of (field raw "status" validate_status);
  a6 ← value_of (field raw "created_at" validate_created_at);
  Some (mk_transaction a1 a2 a3 a4 a5 a6).

(** The type of the entry that a [None] cell gets under each field. *)
Definition none_type (f : spec.field_id) : error_type :=
  match f with
  | spec.f_id | spec.f_organization_id => string_type
  | spec.f_amount => int_type
  | spec.f_currency | spec.f_status => literal_error
  | spec.f_created_at => datetime_type
  end.

End more.

(** ** Sample runs of the further properties *)

Module samples.
Import Py Pydantic models app.

(** The lines of the loop on a batch, with the reference conversions
    (two empty sequences if the loop raises). *)
Definition good_lines : list json * list json :=
  Eval vm_compute in
    match @loop reference.lax ([], []) [reference.good_row] with
    | Return x => x
    | Raise _ => ([], [])
    end.

Definition negative_lines : list json * list json :=
  Eval vm_compute in
    match @loop reference.lax ([], []) [reference.negative_row] with
    | Return x => x
    | Raise _ => ([], [])
    end.

(** The directory of the local run. *)
Definition sample_output (name : string) : string := "sample_output/" +:+ name.

Definition mixed_files : list local.file :=
  Eval vm_compute in
    match @local.main reference.lax sample_output reference.mixed_batch with
    | Return x => x
    | Raise _ => []
    end.

(** A notification whose first record has no [s3] member. *)
Definition bare_notification : gmap string event.value :=
  {[ "Records" := event.VList [event.VDict ∅] ]}.

(** A row without the [currency] column and with no [status] cell. *)
Definition short_row : gmap string cell :=
  list_to_map [("id", Str "4"); ("organization_id", Str "org1"); ("amount", Str "1");
               ("status", NoneCell); ("created_at", Str "2025-11-10T11:30:00Z")].

(** [good_row] with one more column. *)
Definition wide_row : gmap string cell :=
  <["note" := Str "x"]> reference.good_row.

End samples.

Import Py Pydantic models app spec aux.
Import more.

(** ** Strings *)

Section strings.

Lemma append_cons c s t : String c s +:+ t = String c (s +:+ t).
Proof. reflexivity. Qed.

Lemma append_nil_l t : EmptyString +:+ t = t.
Proof. reflexivity. Qed.

Lemma slice_to_from n s : slice_to n s +:+ slice_from n s = s.
Proof.
  revert s; induction n as [|n IH]; intros [|c r]; simpl; try reflexivity.
  now rewrite append_cons, IH.
Qed.

Lemma length_append s t :
  String.length (s +:+ t) = (String.length s + String.length t)%nat.
Proof.
  induction s as [|c s IH]; [reflexivity|].
  rewrite append_cons; simpl; now rewrite IH.
Qed.

Lemma slice_from_append s t : slice_from (String.length s) (s +:+ t) = t.
Proof.
  induction s as [|c s IH]; [now destruct t|].
  rewrite append_cons; simpl; exact IH.
Qed.

Lemma slice_to_append s t : slice_to (String.length s) (s +:+ t) = s.
Proof.
  induction s as [|c s IH]; [now destruct t|].
  rewrite append_cons; simpl; now rewrite IH.
Qed.

Lemma append_inv_head s t u : s +:+ t = s +:+ u -> t = u.
Proof.
  induction s as [|c s IH]; [trivial|].
  rewrite !append_cons; intros [= E]; auto.
Qed.

(** [endswith] holds exactly when the string is some base followed
    by the suffix. *)
Lemma endswith_spec s suffix :
  endswith s suffix = true <-> exists base, s = base +:+ suffix.
Proof.
  unfold endswith. rewrite andb_true_iff, Nat.leb_le, String.eqb_eq. split.
  - intros [_ E].
    exists (slice_to (String.length s - String.length suffix) s).
    rewrite <- E at 2. symmetry. apply slice_to_from.
  - intros [base ->]. rewrite length_append. split; [lia|].
    replace (String.length base + String.length suffix - String.length suffix)%nat
      with (String.length base) by lia.
    apply slice_from_append.
Qed.

Lemma drop_last_append base suffix :
  drop_last (String.length suffix) (base +:+ suffix) = base.
Proof.
  unfold drop_last. rewrite length_append.
  replace (String.length base + String.length suffix - String.length suffix)%nat
    with (String.length base) by lia.
  apply slice_to_append.
Qed.

End strings.

(** ** Output keys *)

Lemma build_output_keys_csv base :
  _build_output_keys (base +:+ ".csv")
  = Return (base +:+ "_valid.jsonl", base +:+ "_invalid.jsonl").
Proof.
  unfold _build_output_keys.
  assert (E : endswith (base +:+ ".csv") ".csv" = true)
    by (apply endswith_spec; eauto).
  rewrite E. simpl negb. cbv iota.
  pose proof (drop_last_append base ".csv") as D. simpl String.length in D.
  now rewrite D.
Qed.

(** C6. [_build_output_keys] raises (a [ValueError], the
    UnexpectedExtension failure of the specification) exactly when the
    key does not end with ".csv"; for a key [base ++ ".csv"] it returns
    [base ++ "_valid.jsonl"] and [base ++ "_invalid.jsonl"]. The two keys
    of section 8 behave as stated. *)
Theorem build_output_keys_spec :
  (forall key,
      (exists m, _build_output_keys key = Raise (ValueError m))
      <-> ~ (exists base, key = base +:+ ".csv"))
  /\ (forall base,
         _build_output_keys (base +:+ ".csv")
         = Return (base +:+ "_valid.jsonl", base +:+ "_invalid.jsonl"))
  /\ _build_output_keys "a/b/card_transaction_2025-11-10.csv"
     = Return ("a/b/card_transaction_2025-11-10_valid.jsonl",
               "a/b/card_transaction_2025-11-10_invalid.jsonl")
  /\ _build_output_keys "a/b/file.txt"
     = Raise (ValueError "Unexpected input key extension (expected .csv): a/b/file.txt").
Proof.
  split; [|split; [exact build_output_keys_csv | split; reflexivity]].
  intros key. rewrite <- endswith_spec. unfold _build_output_keys.
  destruct (endswith key ".csv"); simpl; split.
  - intros [m [=]].
  - intros []; reflexivity.
  - intros _ [=].
  - intros _. eexists. reflexivity.
Qed.

(** ** Field validation against the rules *)

Section fields.
Context `{L : Lax}.

Lemma len_lt_1 s : (len s <? 1) = negb (truthy s).
Proof.
  destruct s as [|c r]; [reflexivity|].
  unfold len; simpl String.length; simpl truthy.
  apply Z.ltb_ge. lia.
Qed.

Lemma length_zero_truthy s : (String.length s =? 0)%nat = negb (truthy s).
Proof. now destruct s. Qed.

(** [not_empty] returns its argument exactly when the trimmed string
    is not empty. *)
Lemma not_empty_spec v :
  not_empty v = (if truthy (strip v) then Return v
                 else Raise (ValueError "must be non-empty")).
Proof.
  unfold not_empty. destruct v as [|c r]; [reflexivity|].
  simpl truthy at 1. simpl negb at 1. rewrite orb_false_l.
  now destruct (truthy (strip (String c r))).
Qed.

(** [ensure_utc] returns its argument exactly when the offset is
    present and zero. *)
Lemma ensure_utc_spec v :
  ensure_utc v = (if bool_decide (tzinfo v = Some 0) then Return v
                  else Raise (ValueError "created_at must be a UTC timestamp")).
Proof.
  unfold ensure_utc, utcoffset, timezone_utc_utcoffset.
  destruct (tzinfo v) as [off|]; [|reflexivity].
  rewrite bool_decide_eq_false_2 by discriminate. rewrite orb_false_l.
  now case_bool_decide.
Qed.

Lemma validate_id_str nm s :
  validate_id nm (Str s)
  = if negb (String.length (strip s) =? 0)%nat then Pass s
    else if truthy s then
           Fail (mk_error value_error nm "Value error, must be non-empty" (PyStr s)
                   [("error", PyExc (ValueError "must be non-empty"))])
         else
           Fail (mk_error string_too_short nm "String should have at least 1 character"
                   (PyStr s) [("min_length", PyInt 1)]).
Proof.
  unfold validate_id, str_validator, min_length, and_then.
  rewrite len_lt_1, length_zero_truthy, negb_involutive.
  destruct s as [|c r]; [reflexivity|].
  simpl truthy at 1 3. simpl negb. cbv iota.
  unfold after. rewrite not_empty_spec.
  now destruct (truthy (strip (String c r))).
Qed.

Lemma validate_amount_str nm a :
  validate_amount nm (Str a)
  = match str_as_int a with
    | Some n =>
        if n <? 0 then
          Fail (mk_error greater_than_equal nm "Input should be greater than or equal to 0"
                  (PyStr a) [("ge", PyInt 0)])
        else Pass n
    | None =>
        match refused_int a with
        | not_an_integer =>
            Fail (mk_error int_parsing nm
                    "Input should be a valid integer, unable to parse string as an integer"
                    (PyStr a) [])
        | integer_too_long =>
            Fail (mk_error int_parsing_size nm
                    "Unable to parse input string as an integer, exceeded maximum size"
                    (PyStr a) [])
        end
    end.
Proof.
  unfold validate_amount, int_validator, ge, and_then.
  destruct (str_as_int a); [reflexivity|]. now destruct (refused_int a).
Qed.

Lemma validate_created_at_str nm t :
  validate_created_at nm (Str t)
  = match str_as_datetime t with
    | inl v =>
        if bool_decide (tzinfo v = Some 0) then Pass v
        else Fail (mk_error value_error nm "Value error, created_at must be a UTC timestamp"
                     (PyStr t)
                     [("error", PyExc (ValueError "created_at must be a UTC timestamp"))])
    | inr reason =>
        match refused_datetime t with
        | not_a_datetime =>
            Fail (mk_error datetime_parsing nm
                    ("Input should be a valid datetime, " +:+ reason)
                    (PyStr t) [("error", PyStr reason)])
        | not_a_datetime_or_date =>
            Fail (mk_error datetime_from_date_parsing nm
                    ("Input should be a valid datetime or date, " +:+ reason)
                    (PyStr t) [("error", PyStr reason)])
        end
    end.
Proof.
  unfold validate_created_at, datetime_validator, and_then.
  destruct (str_as_datetime t) as [v|reason]; [|now destruct (refused_datetime t)].
  unfold after. rewrite ensure_utc_spec. now case_bool_decide.
Qed.

Lemma field_id_case raw :
  field_case raw f_id (field raw "id" validate_id) (fun s a => a = s).
Proof.
  unfold field. destruct (raw !! "id") as [[s|]|] eqn:E.
  - rewrite validate_id_str.
    destruct (negb (String.length (strip s) =? 0)%nat) eqn:R.
    + eapply case_pass; [reflexivity|exact E|reflexivity|].
      unfold satisfied; simpl name. now rewrite E.
    + destruct (truthy s); (eapply case_fail; [reflexivity..|];
        unfold satisfied; simpl name; now rewrite E).
  - eapply case_fail; [reflexivity..|]. unfold satisfied; simpl name. now rewrite E.
  - eapply case_fail; [reflexivity..|]. unfold satisfied; simpl name. now rewrite E.
Qed.

Lemma field_organization_id_case raw :
  field_case raw f_organization_id (field raw "organization_id" validate_id)
    (fun s a => a = s).
Proof.
  unfold field. destruct (raw !! "organization_id") as [[s|]|] eqn:E.
  - rewrite validate_id_str.
    destruct (negb (String.length (strip s) =? 0)%nat) eqn:R.
    + eapply case_pass; [reflexivity|exact E|reflexivity|].
      unfold satisfied; simpl name. now rewrite E.
    + destruct (truthy s); (eapply case_fail; [reflexivity..|];
        unfold satisfied; simpl name; now rewrite E).
  - eapply case_fail; [reflexivity..|]. unfold satisfied; simpl name. now rewrite E.
  - eapply case_fail; [reflexivity..|]. unfold satisfied; simpl name. now rewrite E.
Qed.

Lemma field_amount_case raw :
  field_case raw f_amount (field raw "amount" validate_amount)
    (fun s n => str_as_int s = Some n /\ 0 <= n).
Proof.
  unfold field. destruct (raw !! "amount") as [[s|]|] eqn:E.
  - rewrite validate_amount_str.
    destruct (str_as_int s) as [n|] eqn:P.
    + destruct (n <? 0) eqn:R.
      * eapply case_fail; [reflexivity..|].
        unfold satisfied; simpl name. rewrite E. simpl. now rewrite P, R.
      * eapply case_pass; [reflexivity|exact E| |].
        -- split; [exact P|]. apply Z.ltb_ge in R. exact R.
        -- unfold satisfied; simpl name. rewrite E. simpl. now rewrite P, R.
    + destruct (refused_int s); (eapply case_fail; [reflexivity..|];
        unfold satisfied; simpl name; rewrite E; simpl; now rewrite P).
  - eapply case_fail; [reflexivity..|]. unfold satisfied; simpl name. now rewrite E.
  - eapply case_fail; [reflexivity..|]. unfold satisfied; simpl name. now rewrite E.
Qed.

Lemma field_currency_case raw :
  field_case raw f_currency (field raw "currency" validate_currency)
    (fun s a => a = s /\ (s = "EUR" \/ s = "USD" \/ s = "GBP")).
Proof.
  unfold field. destruct (raw !! "currency") as [[s|]|] eqn:E.
  - unfold validate_currency, literal_validator. simpl existsb. rewrite orb_false_r.
    destruct (String.eqb s "EUR" || (String.eqb s "USD" || String.eqb s "GBP")) eqn:R.
    + eapply case_pass; [reflexivity|exact E| |].
      * split; [reflexivity|].
        rewrite !orb_true_iff, !String.eqb_eq in R. exact R.
      * unfold satisfied; simpl name. rewrite E. simpl. now rewrite <- orb_assoc.
    + eapply case_fail; [reflexivity..|].
      unfold satisfied; simpl name. rewrite E. simpl. now rewrite <- orb_assoc.
  - eapply case_fail; [reflexivity..|]. unfold satisfied; simpl name. now rewrite E.
  - eapply case_fail; [reflexivity..|]. unfold satisfied; simpl name. now rewrite E.
Qed.

Lemma field_status_case raw :
  field_case raw f_status (field raw "status" validate_status)
    (fun s a => a = s /\ (s = "Success" \/ s = "Error" \/ s = "Pending")).
Proof.
  unfold field. destruct (raw !! "status") as [[s|]|] eqn:E.
  - unfold validate_status, literal_validator. simpl existsb. rewrite orb_false_r.
    destruct (String.eqb s "Success" || (String.eqb s "Error" || String.eqb s "Pending")) eqn:R.
    + eapply case_pass; [reflexivity|exact E| |].
      * split; [reflexivity|].
        rewrite !orb_true_iff, !String.eqb_eq in R. exact R.
      * unfold satisfied; simpl name. rewrite E. simpl. now rewrite <- orb_assoc.
    + eapply case_fail; [reflexivity..|].
      unfold satisfied; simpl name. rewrite E. simpl. now rewrite <- orb_assoc.
  - eapply case_fail; [reflexivity..|]. unfold satisfied; simpl name. now rewrite E.
  - eapply case_fail; [reflexivity..|]. unfold satisfied; simpl name. now rewrite E.
Qed.

Lemma field_created_at_case raw :
  field_case raw f_created_at (field raw "created_at" validate_created_at)
    (fun s v => str_as_datetime s = inl v /\ tzinfo v = Some 0).
Proof.
  unfold field. destruct (raw !! "created_at") as [[s|]|] eqn:E.
  - rewrite validate_created_at_str.
    destruct (str_as_datetime s) as [v|reason] eqn:P.
    + case_bool_decide as T.
      * eapply case_pass; [reflexivity|exact E|split; [exact P|exact T]|].
        unfold satisfied; simpl name. rewrite E. simpl. rewrite P.
        unfold utcoffset. now rewrite T.
      * eapply case_fail; [reflexivity..|].
        unfold satisfied; simpl name. rewrite E. simpl. rewrite P.
        unfold utcoffset. destruct (tzinfo v) as [off|]; [|reflexivity].
        apply Z.eqb_neq. congruence.
    + destruct (refused_datetime s); (eapply case_fail; [reflexivity..|];
        unfold satisfied; simpl name; rewrite E; simpl; now rewrite P).
  - eapply case_fail; [reflexivity..|]. unfold satisfied; simpl name. now rewrite E.
  - eapply case_fail; [reflexivity..|]. unfold satisfied; simpl name. now rewrite E.
Qed.

Ltac field_cases raw :=
  destruct (field_id_case raw) as [s1 a1 R1 E1 P1 S1 | e1 R1 L1 S1];
  destruct (field_organization_id_case raw) as [s2 a2 R2 E2 P2 S2 | e2 R2 L2 S2];
  destruct (field_amount_case raw) as [s3 a3 R3 E3 P3 S3 | e3 R3 L3 S3];
  destruct (field_currency_case raw) as [s4 a4 R4 E4 P4 S4 | e4 R4 L4 S4];
  destruct (field_status_case raw) as [s5 a5 R5 E5 P5 S5 | e5 R5 L5 S5];
  destruct (field_created_at_case raw) as [s6 a6 R6 E6 P6 S6 | e6 R6 L6 S6].

(** [model_validate] against the rules: with no violated field it
    builds the instance from the coerced inputs; otherwise it fails
    with one entry per violated field, in declaration order. *)
Lemma model_validate_spec raw :
  (violated raw = []
   /\ exists obj, model_validate raw = Return (Built obj) /\ coerced_from raw obj)
  \/ (violated raw <> []
      /\ exists errors, model_validate raw = Return (ValidationError errors)
                        /\ loc <$> errors = name <$> violated raw).
Proof.
  field_cases raw;
    unfold model_validate; rewrite R1, R2, R3, R4, R5, R6;
    unfold violated, fields; cbn [List.filter];
    rewrite S1, S2, S3, S4, S5, S6; cbn;
    cbn [name] in *;
    first
      [ left; split; [reflexivity|];
        eexists; split; [reflexivity|];
        unfold coerced_from; cbn;
        destruct P3, P4 as [-> _], P5 as [-> _], P6; subst;
        solve [repeat split; eauto]
      | right; split; [discriminate|];
        eexists; split; [reflexivity|]; cbn; congruence ].
Qed.

Lemma validate_record_spec raw :
  (violated raw = []
   /\ exists obj, validate_record raw = Return (Accepted obj) /\ coerced_from raw obj)
  \/ (violated raw <> []
      /\ exists errors, validate_record raw = Return (Rejected raw errors)
                        /\ loc <$> errors = name <$> violated raw).
Proof.
  unfold validate_record.
  destruct (model_validate_spec raw) as [[V (obj & E & C)] | [V (errors & E & C)]];
    rewrite E; [left | right]; eauto.
Qed.

Lemma fields_complete f : In f fields.
Proof. destruct f; cbn; tauto. Qed.

Lemma violated_nil raw : violated raw = [] <-> forall f, satisfied raw f = true.
Proof.
  unfold violated. split.
  - intros E f. destruct (satisfied raw f) eqn:S; [reflexivity|].
    assert (I : In f (List.filter (fun f => negb (satisfied raw f)) fields))
      by (apply filter_In; split; [apply fields_complete | now rewrite S]).
    rewrite E in I. destruct I.
  - intros A. unfold fields; cbn [List.filter]. now rewrite !A.
Qed.

End fields.

(** ** The record validator *)

Lemma entries_per_field `{L : Lax} raw (errors : list ErrorDetail) f :
  loc <$> errors = name <$> violated raw ->
  length (List.filter (fun e => String.eqb (loc e) (name f)) errors)
  = if satisfied raw f then 0%nat else 1%nat.
Proof.
  intros E.
  assert (C : forall (es : list ErrorDetail) nm,
             length (List.filter (fun e => String.eqb (loc e) nm) es)
             = length (List.filter (fun l => String.eqb l nm) (loc <$> es))).
  { intros es nm. induction es as [|e es IH]; [reflexivity|].
    cbn. destruct (String.eqb (loc e) nm); cbn; now rewrite IH. }
  rewrite C, E. unfold violated, fields. cbn [List.filter].
  destruct f;
    destruct (satisfied raw f_id), (satisfied raw f_organization_id),
      (satisfied raw f_amount), (satisfied raw f_currency),
      (satisfied raw f_status), (satisfied raw f_created_at); reflexivity.
Qed.



(** C2. A row whose [created_at] is the text [1731232800] violates
    rule 5 as the specification words it: the text is no ISO 8601
    timestamp and states no offset. Yet [validate_record] accepts the
    row, with no entry at all: the conversion of the [datetime]
    annotation reads a text of digits as Unix time, at offset zero,
    which [ensure_utc] lets pass. The other five fields of the row
    satisfy their rules. The docstring of [CardTransaction] asks for a
    valid ISO8601 UTC timestamp. *)
Theorem digits_only_created_at_row_is_accepted :
  reference.unix_row !! "created_at" = Some (Str "1731232800")
  /\ wording.rule_5 "1731232800" = false
  /\ (forall f, f <> f_created_at -> @satisfied reference.lax reference.unix_row f = true)
  /\ @validate_created_at reference.lax "created_at" (Str "1731232800")
     = Pass (mk_datetime 2024 11 10 10 0 0 0 (Some 0))
  /\ @validate_record reference.lax reference.unix_row
     = Return (Accepted (mk_transaction "5" "org1" 10 "EUR" "Success"
                           (mk_datetime 2024 11 10 10 0 0 0 (Some 0)))).
Proof.
  split; [reflexivity|]. split; [reflexivity|]. split; [|split; reflexivity].
  intros [] _; reflexivity.
Qed.

(** X17. With the rules read through the conversions of the library
    ([satisfied]), a row in which at least one field is not satisfied
    is rejected with the row itself and a non-empty list of entries:
    the entries are located at the unsatisfied fields, in declaration
    order, one entry for every such field and none for a satisfied
    one. The invalid row of section 8 gets five entries: empty id,
    negative amount, currency and status outside their lists, and a
    timestamp without UTC offset. *)
Theorem invalid_row_is_rejected :
  (forall (L : Lax) (raw : gmap string cell),
      (exists f, satisfied raw f = false) ->
      exists errors,
        validate_record raw = Return (Rejected raw errors)
        /\ errors <> []
        /\ loc <$> errors = name <$> violated raw
        /\ forall f, length (List.filter (fun e => String.eqb (loc e) (name f)) errors)
                     = if satisfied raw f then 0%nat else 1%nat)
  /\ @validate_record reference.lax reference.bad_row
     = Return (Rejected reference.bad_row reference.bad_errors)
  /\ (fun e => (loc e, etype e)) <$> reference.bad_errors
     = [("id", string_too_short); ("amount", greater_than_equal);
        ("currency", literal_error); ("status", literal_error);
        ("created_at", value_error)].
Proof.
  split.
  - intros L raw [f F].
    destruct (validate_record_spec raw) as [[V _] | [V (errors & R & E)]].
    + rewrite (proj1 (violated_nil raw) V f) in F. discriminate.
    + exists errors. repeat split; [exact R| |exact E|].
      * intros ->. destruct (violated raw); [congruence | discriminate].
      * intros g. now apply entries_per_field.
  - split; reflexivity.
Qed.

Lemma invalid_row_is_rejected_witness :
  (exists f, @satisfied reference.lax reference.bad_row f = false)
  /\ exists errors,
      @validate_record reference.lax reference.bad_row = Return (Rejected reference.bad_row errors)
      /\ errors <> []
      /\ loc <$> errors = name <$> @violated reference.lax reference.bad_row
      /\ forall f, length (List.filter (fun e => String.eqb (loc e) (name f)) errors)
                   = if @satisfied reference.lax reference.bad_row f then 0%nat else 1%nat.
Proof.
  split; [exists f_id; reflexivity|].
  apply (proj1 invalid_row_is_rejected reference.lax reference.bad_row).
  exists f_id; reflexivity.
Defined.

(** C10. [validate_record] returns on every dict: it yields either the
    instance, or the dict it was given together with a non-empty list
    of entries; no exception leaves it. *)
Theorem validate_record_total :
  forall (L : Lax) (raw : gmap string cell),
    (exists obj, validate_record raw = Return (Accepted obj))
    \/ (exists errors, validate_record raw = Return (Rejected raw errors) /\ errors <> []).
Proof.
  intros L raw.
  destruct (validate_record_spec raw) as [[_ (obj & R & _)] | [V (errors & R & E)]].
  - left; eauto.
  - right. exists errors. split; [exact R|].
    intros ->. destruct (violated raw); [congruence | discriminate].
Qed.

(** C5. The text [1731232800] is not written as an ISO 8601
    timestamp and carries no offset, explicit or other; the two
    timestamp texts of section 8 are ISO 8601 timestamps, the first
    with an explicit UTC offset and the second without one. Validation
    of [created_at] passes on [1731232800] all the same: the conversion
    reads it as Unix time, 2024-11-10T10:00:00 at offset zero, and
    [ensure_utc] returns that value. No format error is reported. *)
Theorem digits_only_text_passes_created_at :
  wording.iso8601_timestamp "1731232800" = false
  /\ wording.explicit_utc_offset "1731232800" = false
  /\ wording.rule_5 "2025-11-10T10:00:00+00:00" = true
  /\ wording.iso8601_timestamp "2025-11-10T10:00:00" = true
  /\ wording.explicit_utc_offset "2025-11-10T10:00:00" = false
  /\ @str_as_datetime reference.lax "1731232800"
     = inl (mk_datetime 2024 11 10 10 0 0 0 (Some 0))
  /\ ensure_utc (mk_datetime 2024 11 10 10 0 0 0 (Some 0))
     = Return (mk_datetime 2024 11 10 10 0 0 0 (Some 0))
  /\ @validate_created_at reference.lax "created_at" (Str "1731232800")
     = Pass (mk_datetime 2024 11 10 10 0 0 0 (Some 0)).
Proof. repeat split. Qed.

(** X18. Validation of [created_at] through the conversion of the
    library: a text that the conversion refuses fails with a parsing
    entry, of type [datetime_parsing] or [datetime_from_date_parsing]
    as the library classifies the refusal; a converted timestamp whose
    offset is not exactly zero, or that has no offset at all, fails
    with the entry of [ensure_utc]; the field passes exactly when the
    text converts to a timestamp with offset zero. *)
Theorem created_at_must_be_utc :
  forall (L : Lax) (nm t : string),
    (forall reason, str_as_datetime t = inr reason ->
       exists e, validate_created_at nm (Str t) = Fail e
                 /\ etype e = match refused_datetime t with
                              | not_a_datetime => datetime_parsing
                              | not_a_datetime_or_date => datetime_from_date_parsing
                              end
                 /\ loc e = nm)
    /\ (forall v off, str_as_datetime t = inl v -> utcoffset v = Some off -> off <> 0 ->
          exists e, validate_created_at nm (Str t) = Fail e
                    /\ etype e = value_error /\ loc e = nm
                    /\ msg e = "Value error, created_at must be a UTC timestamp")
    /\ (forall v, str_as_datetime t = inl v -> utcoffset v = None ->
          exists e, validate_created_at nm (Str t) = Fail e
                    /\ etype e = value_error /\ loc e = nm
                    /\ msg e = "Value error, created_at must be a UTC timestamp")
    /\ (forall v, validate_created_at nm (Str t) = Pass v
                  <-> str_as_datetime t = inl v /\ utcoffset v = Some 0).
Proof.
  intros L nm t. rewrite validate_created_at_str. unfold utcoffset.
  split; [|split; [|split]].
  - intros reason ->. destruct (refused_datetime t); eexists; repeat split.
  - intros v off -> T N. rewrite bool_decide_eq_false_2 by congruence.
    eexists; repeat split.
  - intros v -> T. rewrite bool_decide_eq_false_2 by congruence.
    eexists; repeat split.
  - intros v. split.
    + destruct (str_as_datetime t) as [w|];
        [|destruct (refused_datetime t); discriminate].
      case_bool_decide as T; [|discriminate]. intros [= ->]. now split.
    + intros [-> T]. now rewrite bool_decide_eq_true_2.
Qed.

Lemma created_at_must_be_utc_witness :
  (@str_as_datetime reference.lax "2025-11-10T10:00:00" = inl (mk_datetime 2025 11 10 10 0 0 0 None)
   /\ utcoffset (mk_datetime 2025 11 10 10 0 0 0 None) = None)
  /\ exists e, @validate_created_at reference.lax "created_at" (Str "2025-11-10T10:00:00") = Fail e
               /\ etype e = value_error /\ loc e = "created_at"
               /\ msg e = "Value error, created_at must be a UTC timestamp".
Proof.
  split; [split; reflexivity|].
  apply (proj1 (proj2 (proj2 (created_at_must_be_utc reference.lax "created_at"
                                "2025-11-10T10:00:00")))
           (mk_datetime 2025 11 10 10 0 0 0 None)); reflexivity.
Defined.

(** ** JSON encoding *)

Section encoding.
Context `{L : Lax}.

Lemma json_dumps_list xs :
  json_dumps (PyList xs) = Py.bind (dumps_all xs) (fun js => Return (JArray js)).
Proof. reflexivity. Qed.

Lemma json_dumps_dict items :
  json_dumps (PyDict items) = Py.bind (dumps_items items) (fun ms => Return (JObject ms)).
Proof. reflexivity. Qed.

Lemma json_dumps_cell c : json_dumps (obj_of_cell c) = Return (json_of_cell c).
Proof. now destruct c. Qed.

Lemma dumps_items_cells (l : list (string * cell)) :
  dumps_items (prod_map Datatypes.id obj_of_cell <$> l) = Return (json_of_cells l).
Proof.
  induction l as [|[k c] l IH]; [reflexivity|].
  unfold json_of_cells in *.
  cbn [fmap list_fmap prod_map fst snd Datatypes.id dumps_items].
  rewrite json_dumps_cell, IH. reflexivity.
Qed.

(** A row always encodes, as the object of its cells. *)
Lemma json_dumps_row (raw : gmap string cell) :
  json_dumps (obj_of_row raw) = Return (json_of_row raw).
Proof.
  unfold obj_of_row, json_of_row. rewrite json_dumps_dict, dumps_items_cells. reflexivity.
Qed.

Lemma cell_of_json_of_cell c : cell_of_json (json_of_cell c) = Some c.
Proof. now destruct c. Qed.

(** Decoding the object of a row gives the row back. *)
Lemma row_of_json_row (raw : gmap string cell) :
  row_of_json (json_of_row raw) = Some raw.
Proof.
  unfold row_of_json, json_of_row.
  assert (M : forall l : list (string * cell),
             mapM (fun '(k, v) => c ← cell_of_json v; Some (k, c)) (json_of_cells l)
             = Some l).
  { induction l as [|[k c] l IH]; [reflexivity|].
    unfold json_of_cells in *. cbn. rewrite cell_of_json_of_cell. cbn.
    now rewrite IH. }
  rewrite M. cbn. now rewrite list_to_map_to_list.
Qed.

(** The document of a rejected row: when it encodes, its [row]
    member is the object of the row. *)
Lemma json_dumps_rejected row errors line :
  json_dumps (rejected_record row errors) = Return line ->
  exists es, line = JObject [("row", json_of_row row); ("errors", JArray es)].
Proof.
  unfold rejected_record. rewrite json_dumps_dict.
  cbn [dumps_items]. rewrite json_dumps_row. cbn [Py.bind].
  rewrite json_dumps_list.
  destruct (dumps_all (error_dict <$> errors)) as [es|x]; cbn; [|discriminate].
  intros [= <-]. eauto.
Qed.

Lemma json_dumps_model_dump obj :
  json_dumps (model_dump obj)
  = Return (JObject [("id", JString (id obj));
                     ("organization_id", JString (organization_id obj));
                     ("amount", JNumber (amount obj));
                     ("currency", JString (currency obj));
                     ("status", JString (status obj));
                     ("created_at", JString (render_datetime (created_at obj)))]).
Proof. reflexivity. Qed.

End encoding.

(** ** The row loop and the handler *)

Section partition.
Context `{L : Lax}.

Lemma accepted_true row obj :
  validate_record row = Return (Accepted obj) -> accepted row = true.
Proof. unfold accepted. now intros ->. Qed.

Lemma accepted_false row errors :
  validate_record row = Return (Rejected row errors) -> accepted row = false.
Proof. unfold accepted. now intros ->. Qed.

(** One iteration that returns has appended exactly one line, to the
    accumulator chosen by the validation of the row. *)
Lemma step_cases valid_lines invalid_lines row acc' :
  step (valid_lines, invalid_lines) row = Return acc' ->
  (accepted row = true
   /\ exists line, valid_line row line /\ acc' = (valid_lines ++ [line], invalid_lines))
  \/ (accepted row = false
      /\ exists line, invalid_line row line /\ acc' = (valid_lines, invalid_lines ++ [line])).
Proof.
  unfold step, mbind, outcome_bind.
  destruct (validate_record_spec row) as [[_ (obj & R & _)] | [_ (errors & R & _)]];
    rewrite R; cbn [Py.bind].
  - destruct (json_dumps (model_dump obj)) as [line|x] eqn:D; cbn [Py.bind]; [|discriminate].
    intros [= <-]. left. split; [eapply accepted_true; eauto|].
    exists line. split; [|reflexivity]. exists obj. now split.
  - destruct (json_dumps (rejected_record row errors)) as [line|x] eqn:D;
      cbn [Py.bind]; [|discriminate].
    intros [= <-]. right. split; [eapply accepted_false; eauto|].
    exists line. split; [|reflexivity]. exists errors. now split.
Qed.

(** Invariant of the loop: what it appends to the two accumulators
    are the lines of the accepted rows and the lines of the rejected
    rows, each in the order of the rows. *)
Lemma loop_spec rows : forall valid0 invalid0 valid_lines invalid_lines,
    loop (valid0, invalid0) rows = Return (valid_lines, invalid_lines) ->
    exists vs ins,
      valid_lines = valid0 ++ vs /\ invalid_lines = invalid0 ++ ins
      /\ Forall2 valid_line (List.filter accepted rows) vs
      /\ Forall2 invalid_line (List.filter (fun r => negb (accepted r)) rows) ins.
Proof.
  induction rows as [|row rest IH]; intros valid0 invalid0 valid_lines invalid_lines.
  - cbn. intros [= <- <-]. exists [], []. rewrite !app_nil_r. repeat split; constructor.
  - cbn [loop]. unfold mbind, outcome_bind.
    destruct (step (valid0, invalid0) row) as [[v1 i1]|x] eqn:S; cbn [Py.bind];
      [|discriminate].
    intros Lp. apply IH in Lp as (vs & ins & -> & -> & Fv & Fi).
    apply step_cases in S as [[A (line & Ln & [= -> ->])] | [A (line & Ln & [= -> ->])]];
      cbn [List.filter]; rewrite A; cbn [negb].
    + exists (line :: vs), ins. rewrite <- app_assoc. repeat split; [|exact Fi].
      now constructor.
    + exists vs, (line :: ins). rewrite <- app_assoc. repeat split; [exact Fv|].
      now constructor.
Qed.

Lemma filter_split {A} (f : A -> bool) (l : list A) :
  (length (List.filter f l) + length (List.filter (fun x => negb (f x)) l))%nat = length l.
Proof.
  induction l as [|a l IH]; [reflexivity|].
  cbn [List.filter]. destruct (f a); cbn; lia.
Qed.

(** Whenever the loop returns, every row has produced one line in one
    of the two sequences. *)
Lemma loop_complete rows valid_lines invalid_lines :
  loop ([], []) rows = Return (valid_lines, invalid_lines) ->
  (length valid_lines + length invalid_lines)%nat = length rows.
Proof.
  intros Lp. apply loop_spec in Lp as (vs & ins & -> & -> & Fv & Fi).
  cbn [app]. apply Forall2_length in Fv, Fi. rewrite <- Fv, <- Fi.
  apply filter_split.
Qed.

(** The handler returns only for a key [base ++ ".csv"] and a batch on
    which the loop returns; its result is then as follows. *)
Lemma handler_spec landing key green rows res puts :
  handler landing key green rows = Return (res, puts) ->
  exists base valid_lines invalid_lines,
    key = base +:+ ".csv"
    /\ loop ([], []) rows = Return (valid_lines, invalid_lines)
    /\ res = mk_summary landing key green
               (base +:+ "_valid.jsonl") (base +:+ "_invalid.jsonl")
               (Z.of_nat (length valid_lines)) (Z.of_nat (length invalid_lines))
    /\ puts = emit green (base +:+ "_valid.jsonl") valid_lines
              ++ emit green (base +:+ "_invalid.jsonl") invalid_lines.
Proof.
  unfold handler, mbind, outcome_bind.
  destruct (loop ([], []) rows) as [[valid_lines invalid_lines]|x]; cbn [Py.bind];
    [|discriminate].
  destruct (endswith key ".csv") eqn:E.
  - apply endswith_spec in E as [base ->].
    rewrite build_output_keys_csv. cbn [Py.bind].
    intros [= <- <-]. exists base, valid_lines, invalid_lines. now repeat split.
  - unfold _build_output_keys. rewrite E. cbn. discriminate.
Qed.

Lemma keys_differ base : base +:+ "_valid.jsonl" <> base +:+ "_invalid.jsonl".
Proof. intros E. apply append_inv_head in E. discriminate. Qed.

Lemma emit_key bucket key lines p : In p (emit bucket key lines) -> Key p = key /\ Body p = lines /\ lines <> [].
Proof.
  destruct lines as [|l ls]; cbn; [tauto|].
  intros [<- | []]. now repeat split.
Qed.

End partition.

(** ** When the handler returns *)

Section outcome.
Context `{L : Lax}.

Lemma dumps_all_app l1 l2 :
  dumps_all (l1 ++ l2)
  = Py.bind (dumps_all l1) (fun a => Py.bind (dumps_all l2) (fun b => Return (a ++ b))).
Proof.
  induction l1 as [|o l1 IH]; cbn [app dumps_all].
  - cbn [Py.bind]. now destruct (dumps_all l2).
  - destruct (json_dumps o); cbn [Py.bind]; [|reflexivity].
    rewrite IH. destruct (dumps_all l1); cbn [Py.bind]; [|reflexivity].
    now destruct (dumps_all l2).
Qed.

Lemma encodes_nil : encodes [].
Proof. now exists []. Qed.

Lemma encodes_app a b : encodes a -> encodes b -> encodes (a ++ b).
Proof.
  unfold encodes. intros [ja Ha] [jb Hb]. rewrite fmap_app, dumps_all_app, Ha, Hb.
  cbn. eauto.
Qed.

Lemma chokes_app_l a b : chokes a -> chokes (a ++ b).
Proof. unfold chokes. intros Ha. now rewrite fmap_app, dumps_all_app, Ha. Qed.

Lemma chokes_app_r a b : encodes a -> chokes b -> chokes (a ++ b).
Proof.
  unfold chokes. intros [ja Ha] Hb. now rewrite fmap_app, dumps_all_app, Ha, Hb.
Qed.

(** An entry whose input and context encode is encoded. *)
Lemma entry_encodes e ji jc :
  json_dumps (input e) = Return ji -> dumps_items (ctx e) = Return jc -> encodes [e].
Proof.
  intros Hi Hc. unfold encodes, error_dict. cbn [fmap list_fmap dumps_all].
  rewrite json_dumps_dict. cbn [app dumps_items json_dumps Py.bind].
  rewrite Hi. cbn [Py.bind].
  destruct (ctx e) as [|c cs] eqn:E; cbn [app dumps_items Py.bind]; [eauto|].
  rewrite json_dumps_dict, Hc. cbn [Py.bind]. eauto.
Qed.

(** An entry whose context holds the exception instance is not. *)
Lemma entry_chokes e ji m :
  json_dumps (input e) = Return ji -> ctx e = [("error", PyExc (ValueError m))] ->
  chokes [e].
Proof.
  intros Hi Hc. unfold chokes, error_dict. cbn [fmap list_fmap dumps_all].
  rewrite json_dumps_dict. cbn [app dumps_items json_dumps Py.bind].
  rewrite Hi, Hc. reflexivity.
Qed.

Lemma missing_encodes raw nm : encodes [mk_error missing nm "Field required" (obj_of_row raw) []].
Proof. eapply entry_encodes; [apply json_dumps_row | reflexivity]. Qed.

Lemma id_entries raw nm :
  crash_of (field raw nm validate_id) = None
  /\ if blank (raw !! nm)
     then chokes (errors_of (field raw nm validate_id))
          /\ value_of (field raw nm validate_id) = None
     else encodes (errors_of (field raw nm validate_id)).
Proof.
  unfold field, blank. destruct (raw !! nm) as [[s|]|].
  - rewrite validate_id_str, length_zero_truthy, negb_involutive.
    destruct (truthy (strip s)) eqn:T; cbn [negb andb].
    + rewrite andb_false_r. split; [reflexivity | apply encodes_nil].
    + rewrite andb_true_r. destruct (truthy s); split; try reflexivity.
      * split; [|reflexivity]. eapply entry_chokes; reflexivity.
      * eapply entry_encodes; reflexivity.
  - split; [reflexivity|]. eapply entry_encodes; reflexivity.
  - split; [reflexivity|]. apply missing_encodes.
Qed.

Lemma amount_entries raw :
  crash_of (field raw "amount" validate_amount) = None
  /\ encodes (errors_of (field raw "amount" validate_amount)).
Proof.
  unfold field. destruct (raw !! "amount") as [[s|]|].
  - rewrite validate_amount_str. destruct (str_as_int s) as [n|].
    + destruct (n <? 0); split; try reflexivity;
        [eapply entry_encodes; reflexivity | apply encodes_nil].
    + destruct (refused_int s); (split; [reflexivity|]; eapply entry_encodes; reflexivity).
  - split; [reflexivity|]. eapply entry_encodes; reflexivity.
  - split; [reflexivity|]. apply missing_encodes.
Qed.

Lemma literal_entries raw nm allowed expected :
  crash_of (field raw nm (literal_validator allowed expected)) = None
  /\ encodes (errors_of (field raw nm (literal_validator allowed expected))).
Proof.
  unfold field, literal_validator. destruct (raw !! nm) as [[s|]|].
  - destruct (existsb (String.eqb s) allowed); split; try reflexivity;
      [apply encodes_nil | eapply entry_encodes; reflexivity].
  - split; [reflexivity|]. eapply entry_encodes; reflexivity.
  - split; [reflexivity|]. apply missing_encodes.
Qed.

Lemma created_at_entries raw :
  crash_of (field raw "created_at" validate_created_at) = None
  /\ if non_utc (raw !! "created_at")
     then chokes (errors_of (field raw "created_at" validate_created_at))
          /\ value_of (field raw "created_at" validate_created_at) = None
     else encodes (errors_of (field raw "created_at" validate_created_at)).
Proof.
  unfold field, non_utc. destruct (raw !! "created_at") as [[t|]|].
  - rewrite validate_created_at_str. destruct (str_as_datetime t) as [v|reason].
    + case_bool_decide; cbn [negb]; split; try reflexivity.
      * apply encodes_nil.
      * split; [|reflexivity]. eapply entry_chokes; reflexivity.
    + destruct (refused_datetime t);
        (split; [reflexivity|]; eapply entry_encodes; reflexivity).
  - split; [reflexivity|]. eapply entry_encodes; reflexivity.
  - split; [reflexivity|]. apply missing_encodes.
Qed.

Ltac entries_solver :=
  repeat first
    [ assumption
    | apply chokes_app_l; assumption
    | apply chokes_app_r; [assumption|]
    | apply encodes_app; [assumption|] ].

(** The entries of a rejected row encode exactly when no hook raised
    on the row; an accepted row is a row on which no hook raised. *)
Lemma validate_record_outcome raw :
  (exists obj, validate_record raw = Return (Accepted obj) /\ hook_fails raw = false)
  \/ (exists errors, validate_record raw = Return (Rejected raw errors)
                     /\ if hook_fails raw then chokes errors else encodes errors).
Proof.
  unfold validate_record, model_validate, hook_fails, validate_currency, validate_status.
  destruct (id_entries raw "id") as [C1 H1].
  destruct (id_entries raw "organization_id") as [C2 H2].
  destruct (amount_entries raw) as [C3 H3].
  destruct (literal_entries raw "currency" ["EUR"; "USD"; "GBP"] "'EUR', 'USD' or 'GBP'")
    as [C4 H4].
  destruct (literal_entries raw "status" ["Success"; "Error"; "Pending"]
              "'Success', 'Error' or 'Pending'") as [C5 H5].
  destruct (created_at_entries raw) as [C6 H6].
  unfold validate_amount, validate_currency, validate_status in *.
  rewrite C1, C2, C3, C4, C5, C6. cbn [union option_union union_with option_union_with].
  unfold mbind, outcome_bind. cbn [Py.bind].
  destruct (blank (raw !! "id")), (blank (raw !! "organization_id")),
    (non_utc (raw !! "created_at"));
    repeat match goal with H : _ /\ _ |- _ => destruct H end;
    cbn [orb];
    repeat match goal with
      | |- context [value_of ?r] =>
          let V := fresh "V" in destruct (value_of r) eqn:V; cbn [mbind option_bind]
      end;
    try discriminate;
    first [ left; eexists; split; reflexivity
          | right; eexists; split; [reflexivity|]; entries_solver ].
Qed.

Lemma step_outcome valid_lines invalid_lines row :
  if hook_fails row then step (valid_lines, invalid_lines) row = Raise not_serializable
  else exists acc', step (valid_lines, invalid_lines) row = Return acc'.
Proof.
  unfold step, mbind, outcome_bind.
  destruct (validate_record_outcome row) as [(obj & -> & ->) | (errors & -> & H)];
    cbn [Py.bind].
  - rewrite json_dumps_model_dump. cbn [Py.bind]. eauto.
  - unfold rejected_record. rewrite json_dumps_dict. cbn [dumps_items].
    rewrite json_dumps_row, json_dumps_list. cbn [Py.bind].
    destruct (hook_fails row).
    + unfold chokes in H. now rewrite H.
    + destruct H as [js ->]. cbn [Py.bind]. eauto.
Qed.

Lemma loop_outcome rows : forall valid_lines invalid_lines,
    if existsb hook_fails rows
    then loop (valid_lines, invalid_lines) rows = Raise not_serializable
    else exists v i, loop (valid_lines, invalid_lines) rows = Return (v, i).
Proof.
  induction rows as [|row rest IH]; intros valid_lines invalid_lines; cbn [existsb loop].
  - eauto.
  - unfold mbind, outcome_bind.
    pose proof (step_outcome valid_lines invalid_lines row) as S.
    destruct (hook_fails row); cbn [orb].
    + now rewrite S.
    + destruct S as [[v1 i1] ->]. cbn [Py.bind]. apply IH.
Qed.

(** On a key ending in ".csv", the handler returns exactly when no hook
    raised on any row of the batch, and then the two counts add up to
    the number of rows; otherwise it ends with [not_serializable]. *)
Lemma handler_outcome landing base green rows :
  if existsb hook_fails rows
  then handler landing (base +:+ ".csv") green rows = Raise not_serializable
  else exists res puts,
      handler landing (base +:+ ".csv") green rows = Return (res, puts)
      /\ valid_count res + invalid_count res = Z.of_nat (length rows).
Proof.
  pose proof (loop_outcome rows [] []) as O.
  destruct (existsb hook_fails rows).
  - unfold handler, mbind, outcome_bind. now rewrite O.
  - destruct O as (v & i & O). pose proof (loop_complete _ _ _ O) as C.
    unfold handler, mbind, outcome_bind. rewrite O. cbn [Py.bind].
    rewrite build_output_keys_csv. cbn [Py.bind].
    do 2 eexists. split; [reflexivity|]. cbn [valid_count invalid_count]. lia.
Qed.

End outcome.

(** ** Rendering of timestamps *)

Section rendering.

Lemma ds_shift w pattern : ds (S w) pattern = ds w (String "d" pattern).
Proof. induction w as [|w IH]; [reflexivity|]. cbn [ds] in *. now rewrite IH. Qed.

Lemma append_assoc s t u : (s +:+ t) +:+ u = s +:+ (t +:+ u).
Proof.
  induction s as [|c s IH]; [reflexivity|].
  rewrite !append_cons. now rewrite IH.
Qed.

Lemma digits_acc w : forall n acc, digits w n acc = digits w n EmptyString +:+ acc.
Proof.
  induction w as [|w IH]; intros n acc; [reflexivity|].
  cbn [digits]. rewrite IH. rewrite (IH _ (String _ EmptyString)).
  now rewrite append_assoc.
Qed.

Lemma is_digit_mod n : is_digit (ascii_of_N (48 + Z.to_N (n mod 10))) = true.
Proof.
  pose proof (Z.mod_pos_bound n 10 eq_refl) as B.
  unfold is_digit. rewrite N_ascii_embedding by lia.
  apply andb_true_iff. split; apply N.leb_le; lia.
Qed.

Lemma matches_d c pattern s :
  is_digit c = true -> matches (String "d" pattern) (String c s) = matches pattern s.
Proof. intros D. cbn [matches]. now rewrite D. Qed.

Lemma matches_literal c pattern s :
  Ascii.eqb c "d" = false -> matches (String c pattern) (String c s) = matches pattern s.
Proof. intros N. cbn [matches]. now rewrite N, Ascii.eqb_refl. Qed.

(** [digits w n] is [w] decimal digits. *)
Lemma matches_digits w : forall n pattern rest,
    matches (ds w pattern) (digits w n EmptyString +:+ rest) = matches pattern rest.
Proof.
  induction w as [|w IH]; intros n pattern rest; [reflexivity|].
  rewrite ds_shift. cbn [digits]. rewrite digits_acc, append_assoc, append_cons, append_nil_l.
  rewrite IH. apply matches_d, is_digit_mod.
Qed.

(** A timestamp with a zero offset is rendered in the ISO 8601 form
    that ends with the UTC designator. *)
Lemma render_utc v :
  tzinfo v = Some 0 ->
  render_datetime v = render_clock v +:+ "Z" /\ iso8601_utc (render_datetime v) = true.
Proof.
  intros T. unfold render_datetime. rewrite T. cbn [render_offset Z.eqb].
  split; [reflexivity|].
  unfold iso8601_utc, render_clock.
  repeat rewrite ?append_assoc, ?append_cons, ?append_nil_l.
  destruct (microsecond v =? 0).
  - apply orb_true_iff; left.
    change "dddd-dd-ddTdd:dd:ddZ" with (ds 4 "-dd-ddTdd:dd:ddZ").
    rewrite matches_digits, matches_literal by reflexivity.
    change "dd-ddTdd:dd:ddZ" with (ds 2 "-ddTdd:dd:ddZ").
    rewrite matches_digits, matches_literal by reflexivity.
    change "ddTdd:dd:ddZ" with (ds 2 "Tdd:dd:ddZ").
    rewrite matches_digits, matches_literal by reflexivity.
    change "dd:dd:ddZ" with (ds 2 ":dd:ddZ").
    rewrite matches_digits, matches_literal by reflexivity.
    change "dd:ddZ" with (ds 2 ":ddZ").
    rewrite matches_digits, matches_literal by reflexivity.
    change "ddZ" with (ds 2 "Z").
    rewrite append_nil_l, matches_digits. reflexivity.
  - apply orb_true_iff; right.
    repeat rewrite ?append_assoc, ?append_cons, ?append_nil_l.
    change "dddd-dd-ddTdd:dd:dd.ddddddZ" with (ds 4 "-dd-ddTdd:dd:dd.ddddddZ").
    rewrite matches_digits, matches_literal by reflexivity.
    change "dd-ddTdd:dd:dd.ddddddZ" with (ds 2 "-ddTdd:dd:dd.ddddddZ").
    rewrite matches_digits, matches_literal by reflexivity.
    change "ddTdd:dd:dd.ddddddZ" with (ds 2 "Tdd:dd:dd.ddddddZ").
    rewrite matches_digits, matches_literal by reflexivity.
    change "dd:dd:dd.ddddddZ" with (ds 2 ":dd:dd.ddddddZ").
    rewrite matches_digits, matches_literal by reflexivity.
    change "dd:dd.ddddddZ" with (ds 2 ":dd.ddddddZ").
    rewrite matches_digits, matches_literal by reflexivity.
    change "dd.ddddddZ" with (ds 2 ".ddddddZ").
    rewrite matches_digits, matches_literal by reflexivity.
    change "ddddddZ" with (ds 6 "Z").
    rewrite matches_digits. reflexivity.
Qed.

Lemma read_number_snoc w : forall acc s,
    wording.read_number (S w) acc s
    = '(m, r) ← wording.read_number w acc s; wording.read_number 1 m r.
Proof.
  induction w as [|w IH]; intros acc s.
  - cbn [wording.read_number mbind option_bind]. reflexivity.
  - change (wording.read_number (S (S w)) acc s)
      with (match s with
            | String c r =>
                if is_digit c
                then wording.read_number (S w) (10 * acc + (Z.of_N (N_of_ascii c) - 48)) r
                else None
            | EmptyString => None
            end).
    destruct s as [|c r]; [reflexivity|].
    cbn [wording.read_number]. destruct (is_digit c); [|reflexivity].
    rewrite <- IH. reflexivity.
Qed.

(** A number below [10 ^ w] is read back from its [w] digits. *)
Lemma read_number_digits w : forall n rest,
    0 <= n < 10 ^ Z.of_nat w ->
    wording.read_number w 0 (digits w n EmptyString +:+ rest) = Some (n, rest).
Proof.
  induction w as [|w IH]; intros n rest B.
  - cbn [digits wording.read_number]. rewrite append_nil_l.
    change (10 ^ Z.of_nat 0) with 1 in B. f_equal. f_equal. lia.
  - rewrite read_number_snoc. cbn [digits].
    rewrite digits_acc, append_assoc, append_cons, append_nil_l.
    rewrite Nat2Z.inj_succ, Z.pow_succ_r in B by lia.
    rewrite IH by (split; [apply Z.div_pos; lia | apply Z.div_lt_upper_bound; lia]).
    cbn [mbind option_bind wording.read_number]. rewrite is_digit_mod.
    pose proof (Z.mod_pos_bound n 10 eq_refl) as M.
    rewrite N_ascii_embedding by lia.
    f_equal. f_equal. rewrite (Z.div_mod n 10) at 3 by lia. lia.
Qed.

(** The rendered text of a timestamp, followed by [Z], passes rule 5
    as worded: it is an ISO 8601 timestamp with the UTC designator. *)
Lemma rule_5_render v : wording.rule_5 (render_clock v +:+ "Z") = true.
Proof.
  unfold render_clock. cbn [digits].
  destruct (microsecond v =? 0);
    repeat rewrite ?append_assoc, ?append_cons, ?append_nil_l;
    unfold wording.rule_5, wording.iso8601_timestamp, wording.explicit_utc_offset,
      wording.zone_of;
    cbn [slice_to slice_from matches Ascii.eqb Bool.eqb];
    rewrite !is_digit_mod;
    cbn [andb wording.after_fraction wording.skip_digits Ascii.eqb Bool.eqb orb];
    rewrite ?is_digit_mod.
  all: reflexivity.
Qed.

(** The text rendered for a timestamp with fields in range reads back
    as the same clock at offset zero. *)
Lemma read_utc_render v :
  wording.in_ranges v ->
  wording.read_utc (render_clock v +:+ "Z")
  = Some (mk_datetime (year v) (month v) (day v) (hour v) (minute v) (second v)
            (microsecond v) (Some 0)).
Proof.
  intros (Y & Mo & D & H & Mi & S & U).
  unfold wording.read_utc, render_clock.
  destruct (microsecond v =? 0) eqn:Z0;
    repeat rewrite ?append_assoc, ?append_cons, ?append_nil_l;
    repeat (rewrite read_number_digits by (cbn; lia);
            cbn [mbind option_bind wording.expect Ascii.eqb Bool.eqb]).
  - apply Z.eqb_eq in Z0. rewrite Z0. reflexivity.
  - rewrite String.eqb_refl. reflexivity.
Qed.

End rendering.

(** ** The batch partitioner *)

(** C3. The batch made of the invalid row of section 8 is not
    partitioned: the entry of [ensure_utc] holds the [ValueError]
    instance, [json.dumps] cannot encode it, and [handler] ends with
    a [TypeError] before any payload is written or any count is
    returned. The same happens to a batch in which a valid row comes
    before a row whose only defect is a timestamp without offset, or
    before a row whose only defect is an [id] of whitespace. *)
Theorem handler_raises_on_rejected_row :
  @handler reference.lax "landing-zone-datalake" "a/b/card_transaction_2025-11-10.csv"
    "green-zone-datalake" [reference.bad_row]
  = Raise (TypeError "Object of type ValueError is not JSON serializable")
  /\ @handler reference.lax "landing-zone-datalake" "a/b/card_transaction_2025-11-10.csv"
       "green-zone-datalake" [reference.good_row; reference.naive_row]
     = Raise (TypeError "Object of type ValueError is not JSON serializable")
  /\ @handler reference.lax "landing-zone-datalake" "a/b/card_transaction_2025-11-10.csv"
       "green-zone-datalake" [reference.good_row; reference.blank_row]
     = Raise (TypeError "Object of type ValueError is not JSON serializable").
Proof. repeat split; vm_compute; reflexivity. Qed.

(** C4. When the handler returns, the lines of the valid payload are
    the lines of the accepted rows and the lines of the invalid payload
    are the lines of the rejected rows, each sequence in the order in
    which its rows stand in the input. *)
Theorem outputs_keep_input_order :
  forall (L : Lax) (landing key green : string) (rows : list (gmap string cell))
         (res : summary) (puts : list put_object),
    handler landing key green rows = Return (res, puts) ->
    exists valid_lines invalid_lines,
      Forall2 valid_line (List.filter accepted rows) valid_lines
      /\ Forall2 invalid_line (List.filter (fun r => negb (accepted r)) rows) invalid_lines
      /\ puts = emit green (valid_key res) valid_lines
                ++ emit green (invalid_key res) invalid_lines.
Proof.
  intros L landing key green rows res puts H.
  apply handler_spec in H as (base & vl & il & -> & Lp & -> & ->).
  apply loop_spec in Lp as (vs & ins & -> & -> & Fv & Fi).
  exists vs, ins. cbn [app valid_key invalid_key]. now repeat split.
Qed.

Lemma outputs_keep_input_order_witness :
  @handler reference.lax "landing-zone-datalake" "a/b/card_transaction_2025-11-10.csv"
    "green-zone-datalake" reference.mixed_batch
  = Return (fst reference.mixed_result, snd reference.mixed_result)
  /\ exists valid_lines invalid_lines,
      Forall2 (@valid_line reference.lax)
        (List.filter (@accepted reference.lax) reference.mixed_batch) valid_lines
      /\ Forall2 (@invalid_line reference.lax)
           (List.filter (fun r => negb (@accepted reference.lax r)) reference.mixed_batch)
           invalid_lines
      /\ snd reference.mixed_result
         = emit "green-zone-datalake" (valid_key (fst reference.mixed_result)) valid_lines
           ++ emit "green-zone-datalake" (invalid_key (fst reference.mixed_result))
                invalid_lines.
Proof.
  split; [vm_compute; reflexivity|].
  apply (outputs_keep_input_order reference.lax "landing-zone-datalake"
           "a/b/card_transaction_2025-11-10.csv" "green-zone-datalake"
           reference.mixed_batch).
  vm_compute; reflexivity.
Defined.

(** C8. When the handler returns, no object is written under the valid
    key if no row is valid, none under the invalid key if no row is
    invalid, and no written payload is empty. On a batch without rows
    (and a key ending in ".csv") it returns both counts zero and writes
    nothing. *)
Theorem empty_sequence_writes_nothing :
  (forall (L : Lax) (landing key green : string) (rows : list (gmap string cell))
          (res : summary) (puts : list put_object),
      handler landing key green rows = Return (res, puts) ->
      (valid_count res = 0 -> forall p, In p puts -> Key p <> valid_key res)
      /\ (invalid_count res = 0 -> forall p, In p puts -> Key p <> invalid_key res)
      /\ (forall p, In p puts -> Body p <> []))
  /\ (forall (L : Lax) (landing base green : string),
         handler landing (base +:+ ".csv") green []
         = Return (mk_summary landing (base +:+ ".csv") green
                     (base +:+ "_valid.jsonl") (base +:+ "_invalid.jsonl") 0 0,
                   [])).
Proof.
  split.
  - intros L landing key green rows res puts H.
    apply handler_spec in H as (base & vl & il & -> & _ & -> & ->).
    cbn [valid_count invalid_count valid_key invalid_key].
    split; [|split].
    + intros C p I. apply in_app_or in I as [I | I].
      * destruct vl; [destruct I | discriminate].
      * apply emit_key in I as (-> & _ & _). intros E. symmetry in E.
        exact (keys_differ base E).
    + intros C p I. apply in_app_or in I as [I | I].
      * apply emit_key in I as (-> & _ & _). apply keys_differ.
      * destruct il; [destruct I | discriminate].
    + intros p I. apply in_app_or in I as [I | I];
        apply emit_key in I as (_ & -> & N); exact N.
  - intros L landing base green. unfold handler, mbind, outcome_bind.
    cbn [loop Py.bind]. rewrite build_output_keys_csv. reflexivity.
Qed.

Lemma empty_sequence_writes_nothing_witness :
  @handler reference.lax "landing-zone-datalake" "a/b/card_transaction_2025-11-10.csv"
    "green-zone-datalake" [reference.good_row]
  = Return (fst reference.single_result, snd reference.single_result)
  /\ (valid_count (fst reference.single_result) = 0 ->
      forall p, In p (snd reference.single_result) ->
                Key p <> valid_key (fst reference.single_result))
  /\ (invalid_count (fst reference.single_result) = 0 ->
      forall p, In p (snd reference.single_result) ->
                Key p <> invalid_key (fst reference.single_result))
  /\ (forall p, In p (snd reference.single_result) -> Body p <> []).
Proof.
  split; [vm_compute; reflexivity|].
  apply (proj1 empty_sequence_writes_nothing reference.lax "landing-zone-datalake"
           "a/b/card_transaction_2025-11-10.csv" "green-zone-datalake"
           [reference.good_row]).
  vm_compute; reflexivity.
Defined.

Lemma Forall2_right {A B} (R : A -> B -> Prop) (P : B -> Prop) l k :
  (forall x y, R x y -> P y) -> Forall2 R l k -> Forall P k.
Proof. intros I F. induction F; constructor; eauto. Qed.

Lemma accepted_is_utc `{L : Lax} row obj :
  validate_record row = Return (Accepted obj) -> tzinfo (created_at obj) = Some 0.
Proof.
  intros R.
  destruct (validate_record_spec row) as [[_ (obj' & R' & C)] | [_ (errors & R' & _)]];
    rewrite R' in R; [|discriminate].
  injection R as ->. destruct C as (_ & _ & _ & _ & _ & t & _ & _ & T). exact T.
Qed.

(** C9. When the handler returns, the payload written under the valid
    key has one line per accepted row, in order, and the line of a row
    is a JSON object whose [created_at] member is the rendering of the
    [created_at] of the transaction validated from that row: a string
    of the ISO 8601 form [YYYY-MM-DDTHH:MM:SS], with six fraction digits
    or none, ending in the UTC designator [Z], which states the offset
    explicitly; read as such a timestamp, the string denotes the
    [created_at] of the transaction. *)
Theorem valid_lines_render_utc :
  forall (L : Lax) (landing key green : string) (rows : list (gmap string cell))
         (res : summary) (puts : list put_object),
    handler landing key green rows = Return (res, puts) ->
    forall p, In p puts -> Key p = valid_key res ->
      Forall2 (fun row line =>
                 exists obj members text,
                   validate_record row = Return (Accepted obj)
                   /\ line = JObject members
                   /\ member "created_at" members = Some (JString text)
                   /\ text = render_clock (created_at obj) +:+ "Z"
                   /\ iso8601_utc text = true
                   /\ wording.rule_5 text = true
                   /\ (wording.in_ranges (created_at obj) ->
                       wording.read_utc text = Some (created_at obj)))
              (List.filter accepted rows) (Body p).
Proof.
  intros L landing key green rows res puts H p I K.
  apply handler_spec in H as (base & vl & il & -> & Lp & -> & ->).
  cbn [valid_key] in K.
  apply loop_spec in Lp as (vs & ins & -> & -> & Fv & _). cbn [app] in I.
  apply in_app_or in I as [I | I]; apply emit_key in I as (Kp & -> & _).
  - eapply Forall2_impl; [exact Fv|].
    intros row line (obj & R & D). rewrite json_dumps_model_dump in D.
    injection D as <-.
    pose proof (accepted_is_utc _ _ R) as T.
    destruct (render_utc _ T) as [E M].
    exists obj. do 2 eexists.
    split; [exact R|]. split; [reflexivity|]. split; [reflexivity|].
    split; [exact E|]. split; [exact M|]. split.
    + rewrite E. now apply rule_5_render.
    + intros W. rewrite E, (read_utc_render _ W).
      destruct (created_at obj); cbn in *. now rewrite T.
  - rewrite Kp in K. symmetry in K. destruct (keys_differ base K).
Qed.

Lemma valid_lines_render_utc_witness :
  @handler reference.lax "landing-zone-datalake" "a/b/card_transaction_2025-11-10.csv"
    "green-zone-datalake" reference.mixed_batch
  = Return (fst reference.mixed_result, snd reference.mixed_result)
  /\ forall p,
      In p (snd reference.mixed_result) ->
      Key p = valid_key (fst reference.mixed_result) ->
      Forall2 (fun row line =>
                 exists obj members text,
                   @validate_record reference.lax row = Return (Accepted obj)
                   /\ line = JObject members
                   /\ member "created_at" members = Some (JString text)
                   /\ text = render_clock (created_at obj) +:+ "Z"
                   /\ iso8601_utc text = true
                   /\ wording.rule_5 text = true
                   /\ (wording.in_ranges (created_at obj) ->
                       wording.read_utc text = Some (created_at obj)))
              (List.filter (@accepted reference.lax) reference.mixed_batch) (Body p).
Proof.
  split; [vm_compute; reflexivity|].
  apply (valid_lines_render_utc reference.lax "landing-zone-datalake"
           "a/b/card_transaction_2025-11-10.csv" "green-zone-datalake"
           reference.mixed_batch).
  vm_compute; reflexivity.
Defined.

(** C7. A rejected row is returned as it was given, and when the
    handler returns, each line of the invalid payload holds, under
    [row], the object of the row it comes from: every cell under its
    key with its original string, from which the row reads back
    unchanged. The embedding is functional: no operation of the
    validator or of the loop writes to a row. *)
Theorem rejected_row_is_kept_verbatim :
  (forall (L : Lax) (raw r : gmap string cell) (errors : list ErrorDetail),
      validate_record raw = Return (Rejected r errors) -> r = raw)
  /\ (forall (L : Lax) (row : gmap string cell) (errors : list ErrorDetail),
         exists rest, rejected_record row errors = PyDict (("row", obj_of_row row) :: rest)
                      /\ json_dumps (obj_of_row row) = Return (json_of_row row)
                      /\ row_of_json (json_of_row row) = Some row)
  /\ (forall (L : Lax) (landing key green : string) (rows : list (gmap string cell))
             (res : summary) (puts : list put_object),
         handler landing key green rows = Return (res, puts) ->
         exists valid_lines invalid_lines,
           puts = emit green (valid_key res) valid_lines
                  ++ emit green (invalid_key res) invalid_lines
           /\ Forall2 (fun row line =>
                         exists es,
                           line = JObject [("row", json_of_row row); ("errors", JArray es)])
                      (List.filter (fun r => negb (accepted r)) rows) invalid_lines).
Proof.
  split; [|split].
  - intros L raw r errors. unfold validate_record, mbind, outcome_bind.
    destruct (model_validate raw) as [[obj|es]|x]; cbn [Py.bind]; [discriminate| |discriminate].
    now intros [= <- _].
  - intros L row errors. eexists. split; [reflexivity|].
    split; [apply json_dumps_row | apply row_of_json_row].
  - intros L landing key green rows res puts H.
    apply handler_spec in H as (base & vl & il & -> & Lp & -> & ->).
    apply loop_spec in Lp as (vs & ins & -> & -> & _ & Fi).
    exists vs, ins. split; [reflexivity|].
    eapply Forall2_impl; [exact Fi|].
    intros row line (errors & _ & D). now apply json_dumps_rejected in D.
Qed.

Lemma rejected_row_is_kept_verbatim_witness :
  @handler reference.lax "landing-zone-datalake" "a/b/card_transaction_2025-11-10.csv"
    "green-zone-datalake" reference.mixed_batch
  = Return (fst reference.mixed_result, snd reference.mixed_result)
  /\ exists valid_lines invalid_lines,
      snd reference.mixed_result
      = emit "green-zone-datalake" (valid_key (fst reference.mixed_result)) valid_lines
        ++ emit "green-zone-datalake" (invalid_key (fst reference.mixed_result)) invalid_lines
      /\ Forall2 (fun row line =>
                    exists es,
                      line = JObject [("row", json_of_row row); ("errors", JArray es)])
           (List.filter (fun r => negb (@accepted reference.lax r)) reference.mixed_batch)
           invalid_lines.
Proof.
  split; [vm_compute; reflexivity|].
  apply (proj2 (proj2 rejected_row_is_kept_verbatim) reference.lax "landing-zone-datalake"
           "a/b/card_transaction_2025-11-10.csv" "green-zone-datalake"
           reference.mixed_batch).
  vm_compute; reflexivity.
Defined.

(** ** Further properties: the event of an invocation *)

Section extraction.
Import event.

Lemma contains_spec (ev : gmap string value) k :
  contains ev k = true <-> exists v, ev !! k = Some v.
Proof. unfold contains. rewrite bool_decide_eq_true. reflexivity. Qed.

Lemma contains_false (ev : gmap string value) k :
  contains ev k = false <-> ev !! k = None.
Proof.
  unfold contains. rewrite bool_decide_eq_false, <- eq_None_not_Some. reflexivity.
Qed.

Lemma lookup_total_some (ev : gmap string value) k v : ev !! k = Some v -> ev !!! k = v.
Proof. intros E. now rewrite lookup_total_alt, E. Qed.

Lemma getitem_name v k x : getitem v (Name k) = Return x <-> member_of v k = Some x.
Proof.
  destruct v as [| | | |l|d]; cbn; try (split; discriminate).
  destruct (d !! k); split; congruence.
Qed.

(** Position 0 of an object that is true in a condition: the head of a
    list, the first character of a string, and an exception that is no
    [IndexError] for anything else. *)
Lemma getitem_first v :
  truth v = true ->
  (exists rec rest, v = VList (rec :: rest) /\ getitem v (Pos 0) = Return rec)
  \/ (exists c s, v = VStr (String c s)
                  /\ getitem v (Pos 0) = Return (VStr (String c EmptyString)))
  \/ getitem v (Pos 0) = Raise (KeyError (Pos 0))
  \/ getitem v (Pos 0) = Raise TypeError.
Proof.
  destruct v as [|b|n|s|l|d]; cbn; intros T; try discriminate; auto.
  - destruct s as [|c s]; [discriminate|]. right; left. eauto.
  - destruct l as [|rec rest]; [discriminate|]. left. eauto.
Qed.

Lemma getitem_name_raises v k e :
  getitem v (Name k) = Raise e -> e = KeyError (Name k) \/ e = TypeError.
Proof.
  destruct v as [| | | |l|d]; cbn; try (intros [= <-]; auto).
  destruct (d !! k); [discriminate|]. intros [= <-]; auto.
Qed.

Lemma from_record_returns rec b k :
  from_record rec = Return (b, k)
  <-> path rec ["s3"; "bucket"; "name"] = Some b /\ path rec ["s3"; "object"; "key"] = Some k.
Proof.
  unfold from_record. cbn [path]. split.
  - destruct (getitem rec (Name "s3")) as [s3|] eqn:E1; cbn [bind]; [|discriminate].
    apply getitem_name in E1. rewrite E1.
    destruct (getitem s3 (Name "bucket")) as [bk|] eqn:E2; cbn [bind]; [|discriminate].
    apply getitem_name in E2. rewrite E2.
    destruct (getitem bk (Name "name")) as [bn|] eqn:E3; cbn [bind]; [|discriminate].
    apply getitem_name in E3. rewrite E3.
    destruct (getitem s3 (Name "object")) as [ob|] eqn:E4; cbn [bind]; [|discriminate].
    apply getitem_name in E4. rewrite E4.
    destruct (getitem ob (Name "key")) as [ky|] eqn:E5; cbn [bind]; [|discriminate].
    apply getitem_name in E5. rewrite E5.
    now intros [= -> ->].
  - intros [Pb Pk].
    destruct (member_of rec "s3") as [s3|] eqn:E1; [|discriminate].
    destruct (member_of s3 "bucket") as [bk|] eqn:E2; [|discriminate].
    destruct (member_of bk "name") as [bn|] eqn:E3; [|discriminate].
    injection Pb as <-.
    destruct (member_of s3 "object") as [ob|] eqn:E4; [|discriminate].
    destruct (member_of ob "key") as [ky|] eqn:E5; [|discriminate].
    injection Pk as <-.
    apply getitem_name in E1, E2, E3, E4, E5.
    rewrite E1; cbn [bind]. rewrite E2; cbn [bind]. rewrite E3; cbn [bind].
    rewrite E4; cbn [bind]. now rewrite E5.
Qed.

Lemma from_record_raises rec e :
  from_record rec = Raise e -> (exists k, e = KeyError (Name k)) \/ e = TypeError.
Proof.
  unfold from_record.
  repeat match goal with
    | |- bind (getitem ?v (Name ?k)) _ = _ -> _ =>
        let E := fresh "E" in
        destruct (getitem v (Name k)) eqn:E; cbn [bind];
        [| intros [= <-]; apply getitem_name_raises in E as [-> | ->]; eauto ]
    end.
  discriminate.
Qed.

Lemma from_record_string c : from_record (VStr (String c EmptyString)) = Raise TypeError.
Proof. reflexivity. Qed.

Lemma extract_unfold (ev : gmap string value) :
  _extract_bucket_key_from_event ev
  = if contains ev "bucket" && contains ev "key" then
      Return (ev !!! "bucket", ev !!! "key")
    else if contains ev "Records" && truth (ev !!! "Records") then
      bind (getitem (ev !!! "Records") (Pos 0)) from_record
    else Raise (ValueError "Cannot determine S3 bucket/key from event").
Proof. reflexivity. Qed.

(** X1. [_extract_bucket_key_from_event] returns [(b, k)] in exactly
    two cases: the event has both [bucket] and [key], and they are [b]
    and [k] (whatever else the event holds); or one of the two is
    absent, [Records] is a non-empty list, and in its first record
    [s3.bucket.name] is [b] and [s3.object.key] is [k]. *)
Theorem extract_returns_iff :
  forall (ev : gmap string value) (b k : value),
    _extract_bucket_key_from_event ev = Return (b, k)
    <-> (ev !! "bucket" = Some b /\ ev !! "key" = Some k)
        \/ ((ev !! "bucket" = None \/ ev !! "key" = None)
            /\ exists rec rest,
                ev !! "Records" = Some (VList (rec :: rest))
                /\ path rec ["s3"; "bucket"; "name"] = Some b
                /\ path rec ["s3"; "object"; "key"] = Some k).
Proof.
  intros ev b k. rewrite extract_unfold.
  destruct (contains ev "bucket" && contains ev "key") eqn:D.
  - apply andb_true_iff in D as [[vb Eb]%contains_spec [vk Ek]%contains_spec].
    rewrite (lookup_total_some _ _ _ Eb), (lookup_total_some _ _ _ Ek), Eb, Ek.
    split.
    + intros [= -> ->]. now left.
    + intros [[[= ->] [= ->]] | [[N | N] _]]; [reflexivity | discriminate..].
  - assert (N : ev !! "bucket" = None \/ ev !! "key" = None)
      by (apply andb_false_iff in D as [D | D]; apply contains_false in D; auto).
    destruct (contains ev "Records") eqn:R; cbn [andb].
    + apply contains_spec in R as [recs R]. rewrite (lookup_total_some _ _ _ R), R.
      destruct (truth recs) eqn:T.
      * destruct (getitem_first recs T)
          as [(rec & rest & -> & G) | [(c & s & -> & G) | [G | G]]];
          rewrite G; cbn [bind].
        -- rewrite from_record_returns. split.
           ++ intros [Pb Pk]. right. split; [exact N|]. eauto.
           ++ intros [[Eb Ek] | [_ (rec' & rest' & [= <- <-] & Pb & Pk)]]; [|now split].
              destruct N as [N | N]; congruence.
        -- rewrite from_record_string. split; [discriminate|].
           intros [[Eb Ek] | [_ (rec' & rest' & [=] & _)]]. destruct N; congruence.
        -- split; [discriminate|].
           intros [[Eb Ek] | [_ (rec' & rest' & [= ->] & _)]]; [destruct N; congruence|].
           cbn in G. discriminate G.
        -- split; [discriminate|].
           intros [[Eb Ek] | [_ (rec' & rest' & [= ->] & _)]]; [destruct N; congruence|].
           cbn in G. discriminate G.
      * split; [discriminate|].
        intros [[Eb Ek] | [_ (rec' & rest' & [= ->] & _)]]; [destruct N; congruence|].
        cbn in T. discriminate T.
    + apply contains_false in R. rewrite R. split; [discriminate|].
      intros [[Eb Ek] | [_ (rec' & rest' & [=] & _)]]. destruct N; congruence.
Qed.

(** X2. [_extract_bucket_key_from_event] raises its [ValueError]
    exactly when [bucket] or [key] is absent and [Records] is absent or
    is false in a condition (an empty list, for one). An event whose
    [Records] is not of the expected shape ends with a [KeyError] or a
    [TypeError] instead, and never with an [IndexError]. *)
Theorem extract_raises_classified :
  forall (ev : gmap string value) (e : exc),
    _extract_bucket_key_from_event ev = Raise e ->
    (ev !! "bucket" = None \/ ev !! "key" = None)
    /\ ((e = ValueError "Cannot determine S3 bucket/key from event"
         /\ (ev !! "Records" = None
             \/ exists recs, ev !! "Records" = Some recs /\ truth recs = false))
        \/ (((exists i, e = KeyError i) \/ e = TypeError)
            /\ exists recs, ev !! "Records" = Some recs /\ truth recs = true)).
Proof.
  intros ev e. rewrite extract_unfold.
  destruct (contains ev "bucket" && contains ev "key") eqn:D; [discriminate|].
  assert (N : ev !! "bucket" = None \/ ev !! "key" = None)
    by (apply andb_false_iff in D as [D | D]; apply contains_false in D; auto).
  destruct (contains ev "Records") eqn:R; cbn [andb].
  - apply contains_spec in R as [recs R]. rewrite (lookup_total_some _ _ _ R).
    destruct (truth recs) eqn:T.
    + intros H. split; [exact N|]. right. split; [|eauto].
      destruct (getitem_first recs T)
        as [(rec & rest & -> & G) | [(c & s & -> & G) | [G | G]]];
        rewrite G in H; cbn [bind] in H.
      * apply from_record_raises in H as [[k ->] | ->]; eauto.
      * rewrite from_record_string in H. injection H as <-. auto.
      * injection H as <-. eauto.
      * injection H as <-. auto.
    + intros [= <-]. split; [exact N|]. left. split; [reflexivity|]. eauto.
  - apply contains_false in R. intros [= <-]. split; [exact N|]. left. auto.
Qed.

(** X3. Only the first record of a notification is read: the records
    after it change nothing in what the function returns or raises. *)
Theorem extract_reads_first_record_only :
  forall (ev : gmap string value) (rec : value) (rest rest' : list value),
    _extract_bucket_key_from_event (<["Records" := VList (rec :: rest)]> ev)
    = _extract_bucket_key_from_event (<["Records" := VList (rec :: rest')]> ev).
Proof.
  intros ev rec rest rest'. unfold _extract_bucket_key_from_event, contains.
  rewrite !lookup_insert_eq, !lookup_total_insert_eq.
  rewrite !(lookup_insert_ne _ "Records" "bucket"), !(lookup_insert_ne _ "Records" "key")
    by discriminate.
  rewrite !(lookup_total_insert_ne _ "Records" "bucket"),
    !(lookup_total_insert_ne _ "Records" "key") by discriminate.
  reflexivity.
Qed.

End extraction.

(** ** Further properties: output keys *)

Section keys.

Lemma append_inv_both s t u t' :
  String.length t = String.length t' -> s +:+ t = u +:+ t' -> s = u /\ t = t'.
Proof.
  intros Lt E.
  assert (Ls : String.length s = String.length u).
  { apply (f_equal String.length) in E. rewrite !length_append in E. lia. }
  split.
  - rewrite <- (slice_to_append s t), E, Ls. apply slice_to_append.
  - rewrite <- (slice_from_append s t), E, Ls. apply slice_from_append.
Qed.

(** What a returned pair of keys tells about the input key. *)
Lemma build_output_keys_returns key v i :
  _build_output_keys key = Return (v, i) ->
  exists base, key = base +:+ ".csv" /\ v = base +:+ "_valid.jsonl"
               /\ i = base +:+ "_invalid.jsonl".
Proof.
  intros H. destruct (endswith key ".csv") eqn:E.
  - apply endswith_spec in E as [base ->]. rewrite build_output_keys_csv in H.
    injection H as <- <-. eauto.
  - unfold _build_output_keys in H. rewrite E in H. discriminate.
Qed.

Lemma derived_key_is_no_csv base tail4 rest :
  String.length tail4 = 4%nat -> tail4 <> ".csv" ->
  endswith (base +:+ rest +:+ tail4) ".csv" = false.
Proof.
  intros L4 N. destruct (endswith (base +:+ rest +:+ tail4) ".csv") eqn:E; [|reflexivity].
  apply endswith_spec in E as [b E]. rewrite <- append_assoc in E.
  apply append_inv_both in E as [_ E]; [contradiction | exact L4].
Qed.

(** X4. The output keys of two input keys never collide: equal valid
    keys, or equal invalid keys, come from equal input keys, and a valid
    key is never the invalid key of any input key. *)
Theorem output_keys_never_collide :
  forall (k1 k2 v1 i1 v2 i2 : string),
    _build_output_keys k1 = Return (v1, i1) ->
    _build_output_keys k2 = Return (v2, i2) ->
    (v1 = v2 -> k1 = k2) /\ (i1 = i2 -> k1 = k2) /\ v1 <> i2.
Proof.
  intros k1 k2 v1 i1 v2 i2 H1 H2.
  apply build_output_keys_returns in H1 as (b1 & -> & -> & ->).
  apply build_output_keys_returns in H2 as (b2 & -> & -> & ->).
  split; [|split].
  - intros E. apply append_inv_both in E as [-> _]; reflexivity.
  - intros E. apply append_inv_both in E as [-> _]; reflexivity.
  - intros E.
    change "_invalid.jsonl" with ("_i" +:+ "nvalid.jsonl") in E.
    rewrite <- append_assoc in E.
    apply append_inv_both in E as [_ E]; [discriminate | reflexivity].
Qed.

Lemma output_keys_never_collide_witness :
  (_build_output_keys "a/2025-11-10.csv"
   = Return ("a/2025-11-10_valid.jsonl", "a/2025-11-10_invalid.jsonl")
   /\ _build_output_keys "a/2025-11-11.csv"
      = Return ("a/2025-11-11_valid.jsonl", "a/2025-11-11_invalid.jsonl"))
  /\ "a/2025-11-10_valid.jsonl" <> "a/2025-11-11_invalid.jsonl".
Proof.
  split; [split; reflexivity|].
  exact (proj2 (proj2 (output_keys_never_collide
                         "a/2025-11-10.csv" "a/2025-11-11.csv" _ _ _ _ eq_refl eq_refl))).
Defined.

(** X5. An output key is never accepted as an input key: on either key
    it returns, [_build_output_keys] raises. *)
Theorem output_keys_are_no_input_keys :
  forall (key v i : string),
    _build_output_keys key = Return (v, i) ->
    (exists m, _build_output_keys v = Raise (Py.ValueError m))
    /\ (exists m, _build_output_keys i = Raise (Py.ValueError m)).
Proof.
  intros key v i H. apply build_output_keys_returns in H as (b & -> & -> & ->).
  unfold _build_output_keys.
  change "_valid.jsonl" with ("_valid.j" +:+ "sonl").
  change "_invalid.jsonl" with ("_invalid.j" +:+ "sonl").
  rewrite !derived_key_is_no_csv by (reflexivity || discriminate).
  cbn [negb]. split; eexists; reflexivity.
Qed.

Lemma output_keys_are_no_input_keys_witness :
  _build_output_keys "a/2025-11-10.csv"
  = Return ("a/2025-11-10_valid.jsonl", "a/2025-11-10_invalid.jsonl")
  /\ (exists m, _build_output_keys "a/2025-11-10_valid.jsonl" = Raise (Py.ValueError m))
  /\ (exists m, _build_output_keys "a/2025-11-10_invalid.jsonl" = Raise (Py.ValueError m)).
Proof.
  split; [reflexivity|].
  exact (output_keys_are_no_input_keys "a/2025-11-10.csv" _ _ eq_refl).
Defined.

End keys.

(** ** Further properties: the handler *)

Section handler_more.
Context `{L : Lax}.

Lemma valid_line_functional row l1 l2 : valid_line row l1 -> valid_line row l2 -> l1 = l2.
Proof. intros (o1 & R1 & D1) (o2 & R2 & D2). congruence. Qed.

(** Where an iteration starts does not matter to what it appends. *)
Lemma step_shift v0 i0 row :
  step (v0, i0) row
  = Py.bind (step ([], []) row) (fun '(v, i) => Return (v0 ++ v, i0 ++ i)).
Proof.
  unfold step, mbind, outcome_bind.
  destruct (validate_record row) as [[obj|raw errors]|x]; cbn [Py.bind]; [| |reflexivity].
  - destruct (json_dumps (model_dump obj)); cbn [Py.bind]; [|reflexivity].
    now rewrite app_nil_r.
  - destruct (json_dumps (rejected_record row errors)); cbn [Py.bind]; [|reflexivity].
    now rewrite app_nil_r.
Qed.

Lemma loop_shift rows : forall v0 i0,
    loop (v0, i0) rows
    = Py.bind (loop ([], []) rows) (fun '(v, i) => Return (v0 ++ v, i0 ++ i)).
Proof.
  induction rows as [|row rest IH]; intros v0 i0; cbn [loop].
  - cbn. now rewrite !app_nil_r.
  - unfold mbind, outcome_bind. rewrite (step_shift v0 i0).
    destruct (step ([], []) row) as [[v1 i1]|x]; cbn [Py.bind]; [|reflexivity].
    rewrite (IH (v0 ++ v1) (i0 ++ i1)), (IH v1 i1).
    destruct (loop ([], []) rest) as [[v i]|x]; cbn [Py.bind]; [|reflexivity].
    now rewrite !app_assoc.
Qed.

Lemma loop_app rows1 : forall rows2 acc,
    loop acc (rows1 ++ rows2) = Py.bind (loop acc rows1) (fun acc' => loop acc' rows2).
Proof.
  induction rows1 as [|row rest IH]; intros rows2 acc; cbn [app loop]; [reflexivity|].
  unfold mbind, outcome_bind.
  destruct (step acc row) as [acc'|x]; cbn [Py.bind]; [apply IH | reflexivity].
Qed.

(** X6. What the handler does, by precedence: if a hook raises on
    some row of the batch it ends with the [TypeError] of [json.dumps],
    whatever the key; otherwise, if the key does not end in ".csv", it
    ends with the [ValueError] of [_build_output_keys], after the whole
    batch was validated; otherwise it returns, and the two counts add up
    to the number of rows. *)
Theorem handler_outcome_by_precedence :
  forall (landing key green : string) (rows : list (gmap string cell)),
    if existsb hook_fails rows then
      handler landing key green rows = Raise not_serializable
    else if endswith key ".csv" then
      exists res puts,
        handler landing key green rows = Return (res, puts)
        /\ valid_count res + invalid_count res = Z.of_nat (length rows)
    else
      handler landing key green rows
      = Raise (Py.ValueError ("Unexpected input key extension (expected .csv): " +:+ key)).
Proof.
  intros landing key green rows.
  pose proof (loop_outcome rows [] []) as O.
  destruct (existsb hook_fails rows).
  - unfold handler, mbind, outcome_bind. now rewrite O.
  - destruct O as (v & i & O). unfold handler, mbind, outcome_bind.
    rewrite O. cbn [Py.bind].
    destruct (endswith key ".csv") eqn:E.
    + apply endswith_spec in E as [base ->]. rewrite build_output_keys_csv. cbn [Py.bind].
      do 2 eexists. split; [reflexivity|]. cbn [valid_count invalid_count].
      pose proof (loop_complete _ _ _ O). lia.
    + unfold _build_output_keys. rewrite E. reflexivity.
Qed.

(** X7. When the handler returns, [valid_count] is the number of rows
    that [validate_record] accepts and [invalid_count] the number of
    rows it rejects. *)
Theorem counts_are_those_of_validation :
  forall (landing key green : string) (rows : list (gmap string cell))
         (res : summary) (puts : list put_object),
    handler landing key green rows = Return (res, puts) ->
    valid_count res = Z.of_nat (length (List.filter accepted rows))
    /\ invalid_count res
       = Z.of_nat (length (List.filter (fun r => negb (accepted r)) rows)).
Proof.
  intros landing key green rows res puts H.
  apply handler_spec in H as (base & vl & il & -> & Lp & -> & ->).
  apply loop_spec in Lp as (vs & ins & -> & -> & Fv & Fi).
  apply Forall2_length in Fv, Fi. cbn [app valid_count invalid_count]. split; congruence.
Qed.

(** X8. When the handler returns, it has made at most two writes, to
    distinct keys, each to the target bucket, with content type
    [application/json] and under one of the two keys of the summary, and
    the lines written are as many as the rows of the batch. *)
Theorem writes_are_well_formed :
  forall (landing key green : string) (rows : list (gmap string cell))
         (res : summary) (puts : list put_object),
    handler landing key green rows = Return (res, puts) ->
    (length puts <= 2)%nat
    /\ NoDup (Key <$> puts)
    /\ Forall (fun p => Bucket p = green /\ ContentType p = "application/json"
                        /\ (Key p = valid_key res \/ Key p = invalid_key res)) puts
    /\ list_sum ((fun p => length (Body p)) <$> puts) = length rows.
Proof.
  intros landing key green rows res puts H.
  apply handler_spec in H as (base & vl & il & -> & Lp & -> & ->).
  apply loop_complete in Lp. cbn [valid_key invalid_key].
  pose proof (keys_differ base) as D.
  destruct vl as [|v vl], il as [|i il]; cbn in *.
  - repeat split; [lia | constructor | constructor | exact Lp].
  - split; [lia|]. split; [apply NoDup_singleton|]. split; [|lia].
    constructor; [|constructor]. split; [reflexivity|]. split; [reflexivity|]. now right.
  - split; [lia|]. split; [apply NoDup_singleton|]. split; [|lia].
    constructor; [|constructor]. split; [reflexivity|]. split; [reflexivity|]. now left.
  - split; [lia|]. split; [|split; [|lia]].
    + apply NoDup_cons. split; [|apply NoDup_singleton].
      intros I%list_elem_of_singleton. congruence.
    + constructor; [|constructor; [|constructor]];
        (split; [reflexivity|]; split; [reflexivity|]); [now left | now right].
Qed.

(** X9. The loop composes over concatenation: when it returns on two
    batches, it returns on the batch made of the first followed by the
    second, with each sequence of lines the concatenation of the two. *)
Theorem loop_of_concatenation :
  forall (rows1 rows2 : list (gmap string cell)) (v1 i1 v2 i2 : list json),
    loop ([], []) rows1 = Return (v1, i1) ->
    loop ([], []) rows2 = Return (v2, i2) ->
    loop ([], []) (rows1 ++ rows2) = Return (v1 ++ v2, i1 ++ i2).
Proof.
  intros rows1 rows2 v1 i1 v2 i2 H1 H2.
  rewrite loop_app, H1. cbn [Py.bind]. rewrite loop_shift, H2. reflexivity.
Qed.

End handler_more.

Lemma counts_are_those_of_validation_witness :
  @handler reference.lax "landing-zone-datalake" "a/b/card_transaction_2025-11-10.csv"
    "green-zone-datalake" reference.mixed_batch
  = Return (fst reference.mixed_result, snd reference.mixed_result)
  /\ valid_count (fst reference.mixed_result)
     = Z.of_nat (length (List.filter (@accepted reference.lax) reference.mixed_batch))
  /\ invalid_count (fst reference.mixed_result)
     = Z.of_nat (length (List.filter (fun r => negb (@accepted reference.lax r))
                           reference.mixed_batch)).
Proof.
  split; [vm_compute; reflexivity|].
  apply (@counts_are_those_of_validation reference.lax "landing-zone-datalake"
           "a/b/card_transaction_2025-11-10.csv" "green-zone-datalake"
           reference.mixed_batch _ (snd reference.mixed_result)).
  vm_compute; reflexivity.
Defined.

Lemma writes_are_well_formed_witness :
  @handler reference.lax "landing-zone-datalake" "a/b/card_transaction_2025-11-10.csv"
    "green-zone-datalake" reference.mixed_batch
  = Return (fst reference.mixed_result, snd reference.mixed_result)
  /\ (length (snd reference.mixed_result) <= 2)%nat
  /\ NoDup (Key <$> snd reference.mixed_result)
  /\ Forall (fun p => Bucket p = "green-zone-datalake"
                      /\ ContentType p = "application/json"
                      /\ (Key p = valid_key (fst reference.mixed_result)
                          \/ Key p = invalid_key (fst reference.mixed_result)))
       (snd reference.mixed_result)
  /\ list_sum ((fun p => length (Body p)) <$> snd reference.mixed_result)
     = length reference.mixed_batch.
Proof.
  split; [vm_compute; reflexivity|].
  apply (@writes_are_well_formed reference.lax "landing-zone-datalake"
           "a/b/card_transaction_2025-11-10.csv" "green-zone-datalake"
           reference.mixed_batch).
  vm_compute; reflexivity.
Defined.

Lemma loop_of_concatenation_witness :
  (@loop reference.lax ([], []) [reference.good_row]
   = Return (fst samples.good_lines, snd samples.good_lines)
   /\ @loop reference.lax ([], []) [reference.negative_row]
      = Return (fst samples.negative_lines, snd samples.negative_lines))
  /\ @loop reference.lax ([], []) ([reference.good_row] ++ [reference.negative_row])
     = Return (fst samples.good_lines ++ fst samples.negative_lines,
               snd samples.good_lines ++ snd samples.negative_lines).
Proof.
  split; [split; vm_compute; reflexivity|].
  apply (@loop_of_concatenation reference.lax); vm_compute; reflexivity.
Defined.

Lemma extract_raises_classified_witness :
  event._extract_bucket_key_from_event samples.bare_notification
  = event.Raise (event.KeyError (event.Name "s3"))
  /\ (samples.bare_notification !! "bucket" = None
      \/ samples.bare_notification !! "key" = None)
  /\ ((event.KeyError (event.Name "s3")
       = event.ValueError "Cannot determine S3 bucket/key from event"
       /\ (samples.bare_notification !! "Records" = None
           \/ exists recs, samples.bare_notification !! "Records" = Some recs
                           /\ event.truth recs = false))
      \/ (((exists i, event.KeyError (event.Name "s3") = event.KeyError i)
           \/ event.KeyError (event.Name "s3") = event.TypeError)
          /\ exists recs, samples.bare_notification !! "Records" = Some recs
                          /\ event.truth recs = true)).
Proof.
  split; [vm_compute; reflexivity|].
  apply (extract_raises_classified samples.bare_notification).
  vm_compute; reflexivity.
Defined.

(** ** Further properties: the model *)

Section model_more.
Context `{L : Lax}.

Lemma truthy_lstrip s : truthy (lstrip s) = has_visible s.
Proof.
  induction s as [|c r IH]; [reflexivity|].
  cbn [lstrip has_visible]. destruct (isspace c); [exact IH | reflexivity].
Qed.

Lemma truthy_rstrip s : truthy (rstrip s) = has_visible s.
Proof.
  induction s as [|c r IH]; [reflexivity|].
  cbn [rstrip has_visible]. rewrite <- IH.
  destruct (rstrip r); [now destruct (isspace c) | now rewrite orb_true_r].
Qed.

Lemma has_visible_lstrip s : has_visible (lstrip s) = has_visible s.
Proof.
  induction s as [|c r IH]; [reflexivity|].
  cbn [lstrip]. destruct (isspace c) eqn:W; [|reflexivity].
  cbn [has_visible]. now rewrite W, IH.
Qed.

(** The trimmed string is not empty exactly when the string has a
    character that is not whitespace. *)
Lemma truthy_strip s : truthy (strip s) = has_visible s.
Proof. unfold strip. now rewrite truthy_rstrip, has_visible_lstrip. Qed.

Lemma has_visible_truthy s : has_visible s = true -> truthy s = true.
Proof. now destruct s. Qed.

(** [validate_record] by the six field results: no exception leaves
    it; it accepts with the instance built from the six values when all
    fields pass, and rejects with the entries of the failing fields
    otherwise. *)
Lemma validate_record_shape raw :
  validate_record raw
  = match built raw with
    | Some obj => Return (Accepted obj)
    | None => Return (Rejected raw (entries raw))
    end.
Proof.
  unfold validate_record, model_validate, built, entries.
  destruct (id_entries raw "id") as [C1 _].
  destruct (id_entries raw "organization_id") as [C2 _].
  destruct (amount_entries raw) as [C3 _].
  destruct (literal_entries raw "currency" ["EUR"; "USD"; "GBP"] "'EUR', 'USD' or 'GBP'")
    as [C4 _].
  destruct (literal_entries raw "status" ["Success"; "Error"; "Pending"]
              "'Success', 'Error' or 'Pending'") as [C5 _].
  destruct (created_at_entries raw) as [C6 _].
  unfold validate_amount, validate_currency, validate_status in *.
  rewrite C1, C2, C3, C4, C5, C6. cbn [union option_union union_with option_union_with].
  unfold mbind at 1. unfold outcome_bind. cbn [Py.bind].
  match goal with |- context [match ?c with Some _ => _ | None => _ end] =>
    destruct c end; reflexivity.
Qed.

Lemma rejected_entries raw errors :
  validate_record raw = Return (Rejected raw errors) -> errors = entries raw.
Proof.
  rewrite validate_record_shape. destruct (built raw); [discriminate|]. now intros [= <-].
Qed.

Lemma unsatisfied_is_rejected raw f :
  satisfied raw f = false -> validate_record raw = Return (Rejected raw (entries raw)).
Proof.
  intros S.
  destruct (validate_record_spec raw) as [[V _] | [_ (errors & R & _)]].
  - rewrite (proj1 (violated_nil raw) V f) in S. discriminate.
  - rewrite R. now rewrite (rejected_entries _ _ R).
Qed.

Lemma field_entry_in raw f e :
  (match f with
   | f_id => errors_of (field raw "id" validate_id)
   | f_organization_id => errors_of (field raw "organization_id" validate_id)
   | f_amount => errors_of (field raw "amount" validate_amount)
   | f_currency => errors_of (field raw "currency" validate_currency)
   | f_status => errors_of (field raw "status" validate_status)
   | f_created_at => errors_of (field raw "created_at" validate_created_at)
   end) = [e] ->
  In e (entries raw).
Proof.
  unfold entries. intros E.
  destruct f; rewrite E; rewrite ?in_app_iff; cbn [In]; tauto.
Qed.

(** X10. The [id] chain on a string, case by case: a string with a
    character that is not whitespace passes unchanged (it is not
    trimmed); the empty string fails the length bound with
    [string_too_short]; a string of whitespace only fails the hook with
    [value_error]. [not_empty] returns exactly on the first kind, and
    returns its argument. *)
Theorem id_chain_by_cases :
  forall (nm s : string),
    (forall r, not_empty s = Return r <-> has_visible s = true /\ r = s)
    /\ (has_visible s = true -> validate_id nm (Str s) = Pass s)
    /\ (s = EmptyString ->
        exists e, validate_id nm (Str s) = Fail e /\ etype e = string_too_short
                  /\ loc e = nm)
    /\ (s <> EmptyString -> has_visible s = false ->
        exists e, validate_id nm (Str s) = Fail e /\ etype e = value_error
                  /\ loc e = nm /\ msg e = "Value error, must be non-empty").
Proof.
  intros nm s. rewrite validate_id_str, not_empty_spec, length_zero_truthy, negb_involutive.
  rewrite truthy_strip.
  split; [|split; [|split]].
  - intros r. destruct (has_visible s); split.
    + now intros [= <-].
    + now intros [_ ->].
    + discriminate.
    + now intros [[=] _].
  - now intros ->.
  - intros ->. cbn. eexists; repeat split.
  - intros N ->. destruct s as [|c r]; [contradiction|]. cbn [truthy].
    eexists; repeat split.
Qed.

Lemma id_chain_by_cases_witness :
  has_visible " a " = true /\ validate_id "id" (Str " a ") = Pass " a ".
Proof.
  split; [reflexivity|].
  exact (proj1 (proj2 (id_chain_by_cases "id" " a ")) eq_refl).
Defined.

(** X11. Every instance that [validate_record] returns satisfies the
    constraints of the model: [id] and [organization_id] have a
    character that is not whitespace, [amount] is not negative,
    [currency] and [status] are among their three literals, and
    [created_at] carries a zero offset. *)
Theorem accepted_instance_invariant :
  forall (raw : gmap string cell) (obj : CardTransaction),
    validate_record raw = Return (Accepted obj) ->
    has_visible (id obj) = true
    /\ has_visible (organization_id obj) = true
    /\ 0 <= amount obj
    /\ In (currency obj) ["EUR"; "USD"; "GBP"]
    /\ In (status obj) ["Success"; "Error"; "Pending"]
    /\ tzinfo (created_at obj) = Some 0.
Proof.
  intros raw obj R.
  destruct (validate_record_spec raw) as [[V (obj' & R' & C)] | [_ (errors & R' & _)]];
    rewrite R' in R; [|discriminate].
  injection R as ->.
  pose proof (proj1 (violated_nil raw) V) as S.
  destruct C as (E1 & E2 & (a & E3 & P3 & G3) & E4 & E5 & (t & E6 & P6 & T6)).
  pose proof (S f_id) as S1. pose proof (S f_organization_id) as S2.
  pose proof (S f_currency) as S4. pose proof (S f_status) as S5.
  unfold satisfied in S1, S2, S4, S5. cbn [name] in S1, S2, S4, S5.
  rewrite E1 in S1. rewrite E2 in S2. rewrite E4 in S4. rewrite E5 in S5.
  cbn [rule] in S1, S2, S4, S5.
  rewrite length_zero_truthy, negb_involutive, truthy_strip in S1, S2.
  rewrite !orb_true_iff, !String.eqb_eq in S4, S5.
  repeat split; try assumption; cbn [In]; intuition auto.
Qed.

(** X12. A row that lacks the key of a declared field, or holds [None]
    under it, is always rejected, and the list has an entry at that
    field: of type [missing] with the whole row as input for an absent
    key, and of the type error of the field with [None] as input for a
    [None] cell. *)
Theorem absent_or_none_cell_is_reported :
  forall (raw : gmap string cell) (f : field_id),
    (raw !! name f = None ->
     exists errors e,
       validate_record raw = Return (Rejected raw errors) /\ In e errors
       /\ loc e = name f /\ etype e = missing /\ input e = obj_of_row raw)
    /\ (raw !! name f = Some NoneCell ->
        exists errors e,
          validate_record raw = Return (Rejected raw errors) /\ In e errors
          /\ loc e = name f /\ etype e = none_type f /\ input e = PyNone).
Proof.
  intros raw f. split; intros E.
  - assert (S : satisfied raw f = false) by (unfold satisfied; now rewrite E).
    exists (entries raw), (mk_error missing (name f) "Field required" (obj_of_row raw) []).
    split; [eapply unsatisfied_is_rejected; eauto|].
    split; [|repeat split].
    apply (field_entry_in raw f). unfold field.
    destruct f; cbn [name] in E |- *; now rewrite E.
  - assert (S : satisfied raw f = false) by (unfold satisfied; now rewrite E).
    destruct f; cbn [name] in E |- *;
      (eexists (entries raw), _;
       split; [eapply unsatisfied_is_rejected; exact S|];
       split; [match goal with
               | S : satisfied raw ?f = false |- _ => eapply (field_entry_in raw f)
               end; unfold field; rewrite E; reflexivity|];
       repeat split).
Qed.

End model_more.

Lemma accepted_instance_invariant_witness :
  @validate_record reference.lax reference.good_row
  = Return (Accepted (mk_transaction "1" "org1" 100 "EUR" "Success"
                        (mk_datetime 2025 11 10 10 0 0 0 (Some 0))))
  /\ 0 <= 100.
Proof.
  split; [vm_compute; reflexivity|].
  refine (proj1 (proj2 (proj2 (@accepted_instance_invariant reference.lax
                                 reference.good_row
                                 (mk_transaction "1" "org1" 100 "EUR" "Success"
                                    (mk_datetime 2025 11 10 10 0 0 0 (Some 0))) _)))).
  vm_compute; reflexivity.
Defined.

Lemma absent_or_none_cell_is_reported_witness :
  (samples.short_row !! name f_currency = None
   /\ samples.short_row !! name f_status = Some NoneCell)
  /\ (exists errors e,
         @validate_record reference.lax samples.short_row
         = Return (Rejected samples.short_row errors) /\ In e errors
         /\ loc e = name f_currency /\ etype e = missing
         /\ input e = obj_of_row samples.short_row)
  /\ (exists errors e,
         @validate_record reference.lax samples.short_row
         = Return (Rejected samples.short_row errors) /\ In e errors
         /\ loc e = name f_status /\ etype e = none_type f_status /\ input e = PyNone).
Proof.
  split; [split; vm_compute; reflexivity|].
  split.
  - apply (proj1 (@absent_or_none_cell_is_reported reference.lax samples.short_row
                    f_currency)).
    vm_compute; reflexivity.
  - apply (proj2 (@absent_or_none_cell_is_reported reference.lax samples.short_row
                    f_status)).
    vm_compute; reflexivity.
Defined.

(** ** Further properties: columns outside the model, and the local run *)

Section frame.
Context `{L : Lax}.

Lemma alike_refl {A} (r : checked A) : alike r r.
Proof. destruct r; cbn; auto. Qed.

Lemma alike_field {A} (raw raw' : gmap string cell) nm (v : string -> cell -> checked A) :
  raw !! nm = raw' !! nm -> alike (field raw nm v) (field raw' nm v).
Proof.
  unfold field. intros <-. destruct (raw !! nm); [apply alike_refl|]. cbn. auto.
Qed.

Lemma alike_value {A} (r r' : checked A) : alike r r' -> value_of r = value_of r'.
Proof. destruct r, r'; cbn; intros H; try contradiction; congruence. Qed.

Lemma alike_errors {A} (r r' : checked A) :
  alike r r' -> headline <$> errors_of r = headline <$> errors_of r'.
Proof.
  destruct r as [a|e|x], r' as [a'|e'|x']; cbn; intros H; try contradiction; try reflexivity.
  destruct H as (H1 & H2 & H3 & H4). unfold headline. now rewrite H1, H2, H3, H4.
Qed.

(** X13. Validation reads the six declared fields only: two rows that
    agree on them (whatever other columns they hold) are accepted with
    the same instance or are both rejected, with entries that agree in
    type, location, message and context. *)
Theorem validation_reads_declared_fields_only :
  forall (raw raw' : gmap string cell),
    (forall f, raw !! name f = raw' !! name f) ->
    (forall obj, validate_record raw = Return (Accepted obj)
                 <-> validate_record raw' = Return (Accepted obj))
    /\ (forall errors,
           validate_record raw = Return (Rejected raw errors) ->
           exists errors',
             validate_record raw' = Return (Rejected raw' errors')
             /\ headline <$> errors = headline <$> errors').
Proof.
  intros raw raw' A.
  pose proof (alike_field raw raw' "id" validate_id (A f_id)) as H1.
  pose proof (alike_field raw raw' "organization_id" validate_id (A f_organization_id)) as H2.
  pose proof (alike_field raw raw' "amount" validate_amount (A f_amount)) as H3.
  pose proof (alike_field raw raw' "currency" validate_currency (A f_currency)) as H4.
  pose proof (alike_field raw raw' "status" validate_status (A f_status)) as H5.
  pose proof (alike_field raw raw' "created_at" validate_created_at (A f_created_at)) as H6.
  assert (B : built raw = built raw').
  { unfold built.
    now rewrite (alike_value _ _ H1), (alike_value _ _ H2), (alike_value _ _ H3),
      (alike_value _ _ H4), (alike_value _ _ H5), (alike_value _ _ H6). }
  assert (E : headline <$> entries raw = headline <$> entries raw').
  { unfold entries. rewrite !fmap_app.
    now rewrite (alike_errors _ _ H1), (alike_errors _ _ H2), (alike_errors _ _ H3),
      (alike_errors _ _ H4), (alike_errors _ _ H5), (alike_errors _ _ H6). }
  rewrite !validate_record_shape, <- B.
  destruct (built raw) as [obj'|]; split.
  - reflexivity.
  - discriminate.
  - intros obj; split; discriminate.
  - intros errors [= <-]. eauto.
Qed.

(** X14. The local entry point and the handler run the same loop: the
    local run raises exactly the exception the handler raises on a key
    ending in ".csv", and when it returns it has written both files,
    also one without lines, where the handler writes only the payloads
    that have lines; the lines are the same. *)
Theorem local_run_matches_handler :
  forall (join : string -> string) (landing base green : string)
         (rows : list (gmap string cell)),
    match local.main join rows with
    | Return files =>
        exists valid_lines invalid_lines res puts,
          files = [local.mk_file (join "card_transaction_2025-11-10_valid.jsonl") valid_lines;
                   local.mk_file (join "card_transaction_2025-11-10_invalid.jsonl")
                     invalid_lines]
          /\ handler landing (base +:+ ".csv") green rows = Return (res, puts)
          /\ puts = emit green (valid_key res) valid_lines
                    ++ emit green (invalid_key res) invalid_lines
    | Raise e => handler landing (base +:+ ".csv") green rows = Raise e
    end.
Proof.
  intros join landing base green rows.
  unfold local.main, handler, mbind, outcome_bind.
  destruct (loop ([], []) rows) as [[vl il]|e]; cbn [Py.bind]; [|reflexivity].
  rewrite build_output_keys_csv. cbn [Py.bind].
  exists vl, il. do 2 eexists. split; [reflexivity|]. split; reflexivity.
Qed.

End frame.

Lemma validation_reads_declared_fields_only_witness :
  (forall f, reference.good_row !! name f = samples.wide_row !! name f)
  /\ (forall obj, @validate_record reference.lax reference.good_row = Return (Accepted obj)
                  <-> @validate_record reference.lax samples.wide_row
                      = Return (Accepted obj)).
Proof.
  split; [intros []; vm_compute; reflexivity|].
  apply (proj1 (@validation_reads_declared_fields_only reference.lax reference.good_row
                  samples.wide_row ltac:(intros []; vm_compute; reflexivity))).
Defined.

(** ** Further properties: what the lines hold *)

Section lines.
Context `{L : Lax}.

Lemma json_dumps_entry e j :
  json_dumps (error_dict e) = Return j ->
  exists ms, j = JObject ms
             /\ member "type" ms = Some (JString (type_name (etype e)))
             /\ member "loc" ms = Some (JArray [JString (loc e)]).
Proof.
  unfold error_dict. rewrite json_dumps_dict. cbn [app dumps_items json_dumps Py.bind].
  destruct (json_dumps (input e)) as [ji|]; cbn [Py.bind]; [|discriminate].
  destruct (dumps_items _) as [rest|]; cbn [Py.bind]; [|discriminate].
  intros [= <-]. eexists. split; [reflexivity|]. split; reflexivity.
Qed.

Lemma dumps_all_entries (es : list ErrorDetail) : forall js,
    dumps_all (error_dict <$> es) = Return js ->
    Forall2 (fun e j => exists ms, j = JObject ms
                                   /\ member "type" ms = Some (JString (type_name (etype e)))
                                   /\ member "loc" ms = Some (JArray [JString (loc e)]))
            es js.
Proof.
  induction es as [|e es IH]; intros js; cbn [fmap list_fmap dumps_all].
  - intros [= <-]. constructor.
  - destruct (json_dumps (error_dict e)) as [j|] eqn:D; cbn [Py.bind]; [|discriminate].
    destruct (dumps_all (error_dict <$> es)) as [js'|] eqn:A; cbn [Py.bind]; [|discriminate].
    intros [= <-]. constructor; [now apply json_dumps_entry | now apply IH].
Qed.

(** X15. The line of a rejected row has, under [errors], one JSON
    object per violated field of the row, in declaration order, each
    with the name of its field as its [loc]. *)
Theorem invalid_line_lists_violated_fields :
  forall (row : gmap string cell) (line : json),
    invalid_line row line ->
    exists es,
      line = JObject [("row", json_of_row row); ("errors", JArray es)]
      /\ Forall2 (fun f j => exists ms, j = JObject ms
                                        /\ member "loc" ms = Some (JArray [JString (name f)]))
                 (violated row) es.
Proof.
  intros row line (errors & R & D).
  assert (E : loc <$> errors = name <$> violated row).
  { destruct (validate_record_spec row) as [[_ (obj & R' & _)] | [_ (errors' & R' & E)]];
      rewrite R' in R; [discriminate|]. now injection R as <-. }
  unfold rejected_record in D. rewrite json_dumps_dict in D. cbn [dumps_items] in D.
  rewrite json_dumps_row, json_dumps_list in D. cbn [Py.bind] in D.
  destruct (dumps_all (error_dict <$> errors)) as [es|] eqn:A; cbn [Py.bind] in D;
    [|discriminate].
  injection D as <-. exists es. split; [reflexivity|].
  apply dumps_all_entries in A.
  assert (F : Forall2 (fun l j => exists ms, j = JObject ms
                                             /\ member "loc" ms = Some (JArray [JString l]))
                (loc <$> errors) es).
  { apply Forall2_fmap_l. eapply Forall2_impl; [exact A|].
    intros e j (ms & -> & _ & M). eauto. }
  rewrite E in F. now apply Forall2_fmap_l in F.
Qed.

(** X16. The line of an accepted row gives the row back: [id],
    [organization_id], [currency] and [status] are the strings of the
    row, [amount] is the number its text converts to, and [created_at]
    is the rendering of the timestamp its text converts to. *)
Theorem valid_line_holds_the_row :
  forall (row : gmap string cell) (line : json),
    valid_line row line ->
    exists obj,
      coerced_from row obj
      /\ line = JObject [("id", JString (id obj));
                          ("organization_id", JString (organization_id obj));
                          ("amount", JNumber (amount obj));
                          ("currency", JString (currency obj));
                          ("status", JString (status obj));
                          ("created_at", JString (render_clock (created_at obj) +:+ "Z"))].
Proof.
  intros row line (obj & R & D).
  destruct (validate_record_spec row) as [[_ (obj' & R' & C)] | [_ (errors & R' & _)]];
    rewrite R' in R; [|discriminate].
  injection R as ->. exists obj. split; [exact C|].
  rewrite json_dumps_model_dump in D. injection D as <-.
  destruct C as (_ & _ & _ & _ & _ & t & _ & _ & T).
  now rewrite (proj1 (render_utc _ T)).
Qed.

End lines.

Lemma invalid_line_lists_violated_fields_witness :
  @invalid_line reference.lax reference.negative_row
    (JObject [("row", json_of_row reference.negative_row);
              ("errors",
                JArray [JObject [("type", JString "greater_than_equal");
                                 ("loc", JArray [JString "amount"]);
                                 ("msg", JString "Input should be greater than or equal to 0");
                                 ("input", JString "-1");
                                 ("ctx", JObject [("ge", JNumber 0)]);
                                 ("url", JString "https://errors.pydantic.dev/2.9/v/greater_than_equal")]])])
  /\ exists es,
      JObject [("row", json_of_row reference.negative_row);
               ("errors",
                 JArray [JObject [("type", JString "greater_than_equal");
                                  ("loc", JArray [JString "amount"]);
                                  ("msg", JString "Input should be greater than or equal to 0");
                                  ("input", JString "-1");
                                  ("ctx", JObject [("ge", JNumber 0)]);
                                  ("url", JString "https://errors.pydantic.dev/2.9/v/greater_than_equal")]])]
      = JObject [("row", json_of_row reference.negative_row); ("errors", JArray es)]
      /\ Forall2 (fun f j => exists ms, j = JObject ms
                                        /\ member "loc" ms = Some (JArray [JString (name f)]))
           (@violated reference.lax reference.negative_row) es.
Proof.
  assert (H : @invalid_line reference.lax reference.negative_row
                (JObject [("row", json_of_row reference.negative_row);
                          ("errors",
                            JArray [JObject [("type", JString "greater_than_equal");
                                             ("loc", JArray [JString "amount"]);
                                             ("msg", JString "Input should be greater than or equal to 0");
                                             ("input", JString "-1");
                                             ("ctx", JObject [("ge", JNumber 0)]);
                                             ("url", JString "https://errors.pydantic.dev/2.9/v/greater_than_equal")]])])).
  { exists [mk_error greater_than_equal "amount" "Input should be greater than or equal to 0"
              (PyStr "-1") [("ge", PyInt 0)]].
    split; vm_compute; reflexivity. }
  split; [exact H|].
  exact (@invalid_line_lists_violated_fields reference.lax _ _ H).
Defined.

Lemma valid_line_holds_the_row_witness :
  @valid_line reference.lax reference.good_row
    (JObject [("id", JString "1"); ("organization_id", JString "org1");
              ("amount", JNumber 100); ("currency", JString "EUR");
              ("status", JString "Success");
              ("created_at", JString "2025-11-10T10:00:00Z")])
  /\ exists obj,
      @coerced_from reference.lax reference.good_row obj
      /\ JObject [("id", JString "1"); ("organization_id", JString "org1");
                  ("amount", JNumber 100); ("currency", JString "EUR");
                  ("status", JString "Success");
                  ("created_at", JString "2025-11-10T10:00:00Z")]
         = JObject [("id", JString (id obj));
                    ("organization_id", JString (organization_id obj));
                    ("amount", JNumber (amount obj));
                    ("currency", JString (currency obj));
                    ("status", JString (status obj));
                    ("created_at", JString (render_clock (created_at obj) +:+ "Z"))].
Proof.
  assert (H : @valid_line reference.lax reference.good_row
                (JObject [("id", JString "1"); ("organization_id", JString "org1");
                          ("amount", JNumber 100); ("currency", JString "EUR");
                          ("status", JString "Success");
                          ("created_at", JString "2025-11-10T10:00:00Z")])).
  { exists (mk_transaction "1" "org1" 100 "EUR" "Success"
              (mk_datetime 2025 11 10 10 0 0 0 (Some 0))).
    split; vm_compute; reflexivity. }
  split; [exact H|].
  exact (@valid_line_holds_the_row reference.lax _ _ H).
Defined.
